(** * The tRNS chunk handler of the libpng exemplar

    A shallow embedding of [png_handle_tRNS]
    (seed-gen/.../libpng-exemplar/function_png_handle_tRNS.c) and the
    properties its specification states about it.

    The C function works on a [png_struct], an optional [png_info], the
    input stream and a few arrays on its stack.  All of these are gathered
    in one [world]; the function is a computation in a monad that threads
    the world and has three ways to end a statement: falling through,
    [return], and a transfer of control that never comes back
    ([png_chunk_error], a failed read, a memory fault). *)

From Stdlib Require Import ZArith Lia List String Sorted.
From Stdlib Require Import Strings.Byte.
From stdpp Require Import base option list gmap.
Import ListNotations.
Local Open Scope Z_scope.

(** ** Constants *)

(** Modelled from the spec: the macros of png.h are not among the sources.
    The three mode flags stand for "header seen", "palette seen" and
    "image data begun"; they are the PNG library's bits, as are the colour
    types of the PNG format and the palette bound (MAX_PALETTE_ENTRIES,
    256). *)
Definition PNG_HAVE_IHDR : Z := 0x01.
Definition PNG_HAVE_PLTE : Z := 0x02.
Definition PNG_HAVE_IDAT : Z := 0x04.
Definition PNG_INFO_tRNS : Z := 0x0010.
Definition PNG_COLOR_TYPE_GRAY : Z := 0.
Definition PNG_COLOR_TYPE_RGB : Z := 2.
Definition PNG_COLOR_TYPE_PALETTE : Z := 3.
Definition PNG_COLOR_TYPE_GRAY_ALPHA : Z := 4.
Definition PNG_COLOR_TYPE_RGB_ALPHA : Z := 6.
Definition PNG_MAX_PALETTE_LENGTH : Z := 256.

(** ** Machine integers *)

(** [(unsigned int) x] and [(png_uint_16) x]. *)
Definition to_uint (x : Z) : Z := x mod 2 ^ 32.
Definition to_uint_16 (x : Z) : Z := x mod 2 ^ 16.

Definition byte_val (b : byte) : Z := Z.of_N (Byte.to_N b).

(** ** Data *)

Abbreviation loc := positive.

(** A pointer into an array: the array's block and an index. *)
Definition ptr : Type := loc * nat.

Definition ptr_add (p : ptr) (k : nat) : ptr := (fst p, (snd p + k)%nat).

(** The cells of an array; [None] is a cell nobody has written yet. *)
Abbreviation block := (list (option byte)).

(** The fields of [png_color_16] the handler writes. *)
Record png_color_16 := mk_color_16 {
  red : Z;
  green : Z;
  blue : Z;
  gray : Z
}.

(** The fields of [png_struct] the handler reads or writes, and
    [trans_alpha], its own pointer to alpha bytes, which no statement of
    the handler assigns. *)
Record png_struct := mk_png_struct {
  mode : Z;
  color_type : Z;
  num_palette : Z;
  num_trans : Z;
  trans_color : png_color_16;
  trans_alpha : option loc
}.

Record png_info := mk_png_info {
  info_valid : Z;
  info_num_trans : Z;
  info_trans_color : png_color_16;
  info_trans_alpha : option loc
}.

(** What the collaborators report without ending the session. *)
Inductive event :=
  | BenignError (msg : string)
  | CrcError.

Record world := mk_world {
  w_png : png_struct;
  w_info : png_info;
  w_heap : gmap loc block;
  w_pending : list byte;   (* the bytes of the stream not read yet *)
  w_crc_ok : bool;         (* the verdict the checksum of this chunk gets *)
  w_log : list event
}.

(** [info_ptr] is NULL or points to the session's [png_info]. *)
Inductive png_inforp := InfoNull | InfoPtr.

Definition set_png (p : png_struct) (w : world) : world :=
  mk_world p (w_info w) (w_heap w) (w_pending w) (w_crc_ok w) (w_log w).
Definition set_info (i : png_info) (w : world) : world :=
  mk_world (w_png w) i (w_heap w) (w_pending w) (w_crc_ok w) (w_log w).
Definition set_heap (h : gmap loc block) (w : world) : world :=
  mk_world (w_png w) (w_info w) h (w_pending w) (w_crc_ok w) (w_log w).
Definition set_pending (bs : list byte) (w : world) : world :=
  mk_world (w_png w) (w_info w) (w_heap w) bs (w_crc_ok w) (w_log w).
Definition set_log (es : list event) (w : world) : world :=
  mk_world (w_png w) (w_info w) (w_heap w) (w_pending w) (w_crc_ok w) es.

Definition with_num_trans (n : Z) (p : png_struct) : png_struct :=
  mk_png_struct (mode p) (color_type p) (num_palette p) n (trans_color p)
    (trans_alpha p).
Definition with_trans_color (c : png_color_16) (p : png_struct) : png_struct :=
  mk_png_struct (mode p) (color_type p) (num_palette p) (num_trans p) c
    (trans_alpha p).

Definition with_gray (v : Z) (c : png_color_16) : png_color_16 :=
  mk_color_16 (red c) (green c) (blue c) v.
Definition with_red (v : Z) (c : png_color_16) : png_color_16 :=
  mk_color_16 v (green c) (blue c) (gray c).
Definition with_green (v : Z) (c : png_color_16) : png_color_16 :=
  mk_color_16 (red c) v (blue c) (gray c).
Definition with_blue (v : Z) (c : png_color_16) : png_color_16 :=
  mk_color_16 (red c) (green c) v (gray c).

(** ** The monad *)

(** Why control left for good. *)
Inductive stop :=
  | ChunkError (msg : string)   (* png_chunk_error *)
  | ShortRead                   (* the stream ended inside the chunk *)
  | MemFault.                   (* an access outside an array *)

Inductive res (A : Type) :=
  | Normal (a : A) (w : world)
  | Returned (w : world)
  | Stopped (e : stop) (w : world).
Arguments Normal {A} a w.
Arguments Returned {A} w.
Arguments Stopped {A} e w.

Definition M (A : Type) : Type := world -> res A.

Definition ret {A} (a : A) : M A := fun w => Normal a w.

Definition bind {A B} (m : M A) (k : A -> M B) : M B := fun w =>
  match m w with
  | Normal a w' => k a w'
  | Returned w' => Returned w'
  | Stopped e w' => Stopped e w'
  end.

Declare Scope c_scope.
Delimit Scope c_scope with C.
Notation "x <- c ;; k" := (bind c (fun x => k))
  (at level 100, c at next level, right associativity) : c_scope.
Notation "c ;; k" := (bind c (fun _ => k))
  (at level 100, right associativity) : c_scope.
Local Open Scope c_scope.

(** [return;] *)
Definition return_ {A} : M A := fun w => Returned w.

(** A call of a [void] function: its [return] ends the call, not the
    caller. *)
Definition call (body : M unit) : M unit := fun w =>
  match body w with
  | Normal _ w' => Normal tt w'
  | Returned w' => Normal tt w'
  | Stopped e w' => Stopped e w'
  end.

Definition stop_with {A} (e : stop) : M A := fun w => Stopped e w.

Definition get_png : M png_struct := fun w => Normal (w_png w) w.
Definition get_info : M png_info := fun w => Normal (w_info w) w.
Definition upd_png (f : png_struct -> png_struct) : M unit := fun w =>
  Normal tt (set_png (f (w_png w)) w).
Definition upd_info (f : png_info -> png_info) : M unit := fun w =>
  Normal tt (set_info (f (w_info w)) w).
Definition emit (e : event) : M unit := fun w =>
  Normal tt (set_log (w_log w ++ [e]) w).

(** ** Arrays *)

Definition map_world {A} (f : world -> world) (r : res A) : res A :=
  match r with
  | Normal a w => Normal a (f w)
  | Returned w => Returned (f w)
  | Stopped e w => Stopped e (f w)
  end.

Definition free_block (l : loc) (w : world) : world :=
  set_heap (delete l (w_heap w)) w.

(** An array of [n] bytes with automatic storage: it exists from the entry
    of its block to whichever way the block is left. *)
Definition with_array {A} (n : nat) (body : ptr -> M A) : M A := fun w =>
  let l := fresh (dom (w_heap w)) in
  map_world (free_block l)
    (body (l, 0%nat) (set_heap (<[l := replicate n None]> (w_heap w)) w)).

(** A block of the allocator, holding [cells]. *)
Definition malloc (cells : block) : M loc := fun w =>
  let l := fresh (dom (w_heap w)) in
  Normal l (set_heap (<[l := cells]> (w_heap w)) w).

(** [n] cells from [p] on. *)
Definition load_cells (p : ptr) (n : nat) : M block := fun w =>
  match w_heap w !! fst p with
  | Some cells =>
      if (snd p + n <=? List.length cells)%nat
      then Normal (take n (drop (snd p) cells)) w
      else Stopped MemFault w
  | None => Stopped MemFault w
  end.

Definition store_bytes (p : ptr) (bs : list byte) : M unit := fun w =>
  match w_heap w !! fst p with
  | Some cells =>
      if (snd p + List.length bs <=? List.length cells)%nat
      then Normal tt
             (set_heap (<[fst p := take (snd p) cells ++ (Some <$> bs)
                             ++ drop (snd p + List.length bs) cells]>
                          (w_heap w)) w)
      else Stopped MemFault w
  | None => Stopped MemFault w
  end.

(** ** The collaborators *)

(** Modelled from the spec: png_chunk_error is not among the sources.  It
    raises the fatal error of section 7: the decode session is aborted and
    control never comes back to the handler. *)
Definition png_chunk_error {A} (msg : string) : M A :=
  stop_with (ChunkError msg).

(** Modelled from the spec: png_chunk_benign_error is not among the
    sources.  A benign error is reported and the session goes on. *)
Definition png_chunk_benign_error (msg : string) : M unit :=
  emit (BenignError msg).

(** Modelled from the spec: png_crc_read is not among the sources.  It is
    the cursor's read_exact of section 6: [n] bytes of the stream go to the
    cells at [buf]; a stream that ends early is the fatal ShortRead. *)
Definition png_crc_read (buf : ptr) (n : Z) : M unit := fun w =>
  if (Z.to_nat n <=? List.length (w_pending w))%nat
  then store_bytes buf (take (Z.to_nat n) (w_pending w))
         (set_pending (drop (Z.to_nat n) (w_pending w)) w)
  else Stopped ShortRead w.

(** Modelled from the spec: png_crc_finish is not among the sources.  It
    discards [skip] more bytes of the chunk and then is the cursor's
    finish_and_verify_checksum of section 6: a mismatch is reported by the
    cursor and answered with a non-zero result. *)
Definition png_crc_finish (skip : Z) : M Z := fun w =>
  if (Z.to_nat skip <=? List.length (w_pending w))%nat
  then
    let w' := set_pending (drop (Z.to_nat skip) (w_pending w)) w in
    if w_crc_ok w' then Normal 0 w'
    else Normal 1 (set_log (w_log w' ++ [CrcError]) w')
  else Stopped ShortRead w.

(** The 16-bit value of two bytes, the first one shifted into the high
    half. *)
Definition be16 (b0 b1 : byte) : Z :=
  to_uint_16 (Z.shiftl (byte_val b0) 8 + byte_val b1).

(** Modelled from the spec: png_get_uint_16 is not among the sources.  Two
    bytes at [buf], big-endian, unsigned (section 4.2).  Cells that were
    never written have no value to read. *)
Definition png_get_uint_16 (buf : ptr) : M Z :=
  cells <- load_cells buf 2 ;;
  match cells with
  | [Some b0; Some b1] => ret (be16 b0 b1)
  | _ => stop_with MemFault
  end.

Definition info_commit (a : loc) (n : Z) (c : png_color_16) (i : png_info)
  : png_info :=
  mk_png_info (Z.lor (info_valid i) PNG_INFO_tRNS) (to_uint_16 n) c (Some a).

(** Modelled from the spec: png_set_tRNS is not among the sources.  It is
    the commit of section 4.1: what the handler hands over (the first
    [num_trans] alpha bytes of the buffer, the colour, the count) is copied
    into the [png_info], the alpha bytes into a block of its own, and tRNS
    is marked valid.  Section 4.1 names no other effect, and none is
    modelled.  The test of [info_ptr] before the duplicate check shows that
    NULL is a legal argument; there is no record to write then. *)
Definition png_set_tRNS (info_ptr : png_inforp) (trans_alpha_buf : ptr)
    (n : Z) (c : png_color_16) : M unit :=
  match info_ptr with
  | InfoNull => ret tt
  | InfoPtr =>
      cells <- load_cells trans_alpha_buf (Z.to_nat n) ;;
      a <- malloc cells ;;
      upd_info (info_commit a n c)
  end.

(** ** The handler *)

Definition info_not_null (info_ptr : png_inforp) : bool :=
  match info_ptr with InfoNull => false | InfoPtr => true end.

(** Lines 9 to 24: the three tests made before anything is decoded. *)
Definition tRNS_preconditions (info_ptr : png_inforp) (len : Z) : M unit :=
  png_ptr <- get_png ;;
  info <- get_info ;;
  if Z.land (mode png_ptr) PNG_HAVE_IHDR =? 0 then
    png_chunk_error "missing IHDR"
  else if negb (Z.land (mode png_ptr) PNG_HAVE_IDAT =? 0) then
    png_crc_finish len ;;
    png_chunk_benign_error "out of place" ;;
    return_
  else if info_not_null info_ptr
          && negb (Z.land (info_valid info) PNG_INFO_tRNS =? 0) then
    png_crc_finish len ;;
    png_chunk_benign_error "duplicate" ;;
    return_
  else ret tt.

(** Lines 26 to 40: one 16-bit gray level. *)
Definition tRNS_gray (len : Z) : M unit :=
  with_array 2 (fun buf =>
    (if negb (len =? 2) then
       png_crc_finish len ;;
       png_chunk_benign_error "invalid" ;;
       return_
     else ret tt) ;;
    png_crc_read buf 2 ;;
    upd_png (with_num_trans 1) ;;
    v <- png_get_uint_16 buf ;;
    upd_png (fun p => with_trans_color (with_gray v (trans_color p)) p)).

(** Lines 42 to 58: three 16-bit samples. *)
Definition tRNS_rgb (len : Z) : M unit :=
  with_array 6 (fun buf =>
    (if negb (len =? 6) then
       png_crc_finish len ;;
       png_chunk_benign_error "invalid" ;;
       return_
     else ret tt) ;;
    png_crc_read buf len ;;
    upd_png (with_num_trans 1) ;;
    r <- png_get_uint_16 buf ;;
    upd_png (fun p => with_trans_color (with_red r (trans_color p)) p) ;;
    g <- png_get_uint_16 (ptr_add buf 2) ;;
    upd_png (fun p => with_trans_color (with_green g (trans_color p)) p) ;;
    b <- png_get_uint_16 (ptr_add buf 4) ;;
    upd_png (fun p => with_trans_color (with_blue b (trans_color p)) p)).

(** Lines 60 to 81: one alpha byte for each of the first entries of the
    palette. *)
Definition tRNS_palette (readbuf : ptr) (len : Z) : M unit :=
  png_ptr <- get_png ;;
  (if Z.land (mode png_ptr) PNG_HAVE_PLTE =? 0 then
     png_crc_finish len ;;
     png_chunk_benign_error "out of place" ;;
     return_
   else ret tt) ;;
  (if (len >? to_uint (num_palette png_ptr))
      || (len >? to_uint PNG_MAX_PALETTE_LENGTH)
      || (len =? 0) then
     png_crc_finish len ;;
     png_chunk_benign_error "invalid" ;;
     return_
   else ret tt) ;;
  png_crc_read readbuf len ;;
  upd_png (with_num_trans (to_uint_16 len)).

(** Lines 26 to 88: the payload is decoded by colour type. *)
Definition tRNS_decode (readbuf : ptr) (len : Z) : M unit :=
  png_ptr <- get_png ;;
  if color_type png_ptr =? PNG_COLOR_TYPE_GRAY then tRNS_gray len
  else if color_type png_ptr =? PNG_COLOR_TYPE_RGB then tRNS_rgb len
  else if color_type png_ptr =? PNG_COLOR_TYPE_PALETTE then
    tRNS_palette readbuf len
  else
    png_crc_finish len ;;
    png_chunk_benign_error "invalid with alpha channel" ;;
    return_.

(** Lines 90 to 101: the checksum, then the commit. *)
Definition tRNS_commit (info_ptr : png_inforp) (readbuf : ptr) : M unit :=
  r <- png_crc_finish 0 ;;
  (if negb (r =? 0) then
     upd_png (with_num_trans 0) ;;
     return_
   else ret tt) ;;
  png_ptr <- get_png ;;
  png_set_tRNS info_ptr readbuf (num_trans png_ptr) (trans_color png_ptr).

(** The whole function; [readbuf] is its array of 256 bytes, and the
    [png_debug] trace has no effect on the world. *)
Definition png_handle_tRNS (info_ptr : png_inforp) (len : Z) : M unit :=
  call
    (with_array (Z.to_nat PNG_MAX_PALETTE_LENGTH) (fun readbuf =>
       tRNS_preconditions info_ptr len ;;
       tRNS_decode readbuf len ;;
       tRNS_commit info_ptr readbuf)).

(** ** The specification's view of the records *)

Definition have_header (w : world) : bool :=
  negb (Z.land (mode (w_png w)) PNG_HAVE_IHDR =? 0).
Definition have_image_data (w : world) : bool :=
  negb (Z.land (mode (w_png w)) PNG_HAVE_IDAT =? 0).
Definition have_palette (w : world) : bool :=
  negb (Z.land (mode (w_png w)) PNG_HAVE_PLTE =? 0).
Definition transparency_valid (w : world) : bool :=
  negb (Z.land (info_valid (w_info w)) PNG_INFO_tRNS =? 0).

Inductive TransparencyValue :=
  | Gray (v : Z)
  | Rgb (r g b : Z)
  | PaletteAlphas (alphas : list byte).

Fixpoint cells_bytes (cells : block) : option (list byte) :=
  match cells with
  | [] => Some []
  | Some b :: cells' =>
      match cells_bytes cells' with
      | Some bs => Some (b :: bs)
      | None => None
      end
  | None :: _ => None
  end.

(** The transparency value the [png_info] holds, read by the colour type of
    the session. *)
Definition info_transparency (w : world) : option TransparencyValue :=
  let i := w_info w in
  let c := info_trans_color i in
  if negb (transparency_valid w) then None
  else if color_type (w_png w) =? PNG_COLOR_TYPE_GRAY then
    Some (Gray (gray c))
  else if color_type (w_png w) =? PNG_COLOR_TYPE_RGB then
    Some (Rgb (red c) (green c) (blue c))
  else if color_type (w_png w) =? PNG_COLOR_TYPE_PALETTE then
    match info_trans_alpha i with
    | Some a =>
        match w_heap w !! a with
        | Some cells => PaletteAlphas <$> cells_bytes cells
        | None => None
        end
    | None => None
    end
  else None.

(** ** Concrete sessions *)

Definition color0 : png_color_16 := mk_color_16 0 0 0 0.
Definition info0 : png_info := mk_png_info 0 0 color0 None.

Definition session (md ct npal : Z) (bytes : list byte) (crc : bool) : world :=
  mk_world (mk_png_struct md ct npal 0 color0 None) info0 ∅ bytes crc [].

Definition final {A} (r : res A) : world :=
  match r with Normal _ w | Returned w | Stopped _ w => w end.

(** What is left of the checksum's verdict in the log. *)
Definition crc_events (w : world) : list event :=
  if w_crc_ok w then [] else [CrcError].

(** The world after [skip] bytes were discarded and the checksum checked. *)
Definition finished (skip : Z) (w : world) : world :=
  set_log (w_log w ++ crc_events w)
    (set_pending (drop (Z.to_nat skip) (w_pending w)) w).

(** The world after a chunk of [len] bytes was rejected with [msg]: the
    bytes are gone from the stream, the error is in the log, and nothing
    else differs. *)
Definition rejected (msg : string) (len : Z) (w : world) : world :=
  set_log (w_log (finished len w) ++ [BenignError msg]) (finished len w).

(** The chunk has its [len] bytes in the stream. *)
Definition chunk_present (len : Z) (w : world) : Prop :=
  (Z.to_nat len <= List.length (w_pending w))%nat.

(** The world as the body of the handler finds it: [readbuf] is on the
    stack. *)
Definition readbuf_loc (w : world) : loc := fresh (dom (w_heap w)).

Definition enter (w : world) : world :=
  set_heap (<[readbuf_loc w := replicate (Z.to_nat PNG_MAX_PALETTE_LENGTH) None]>
              (w_heap w)) w.

(** ** The handler in closed form

    What a call does, written out case by case on the entry world; the
    section on the closed form below proves that the handler computes
    exactly this. *)

(** The outcome of the statements [png_crc_finish(length); benign error;
    return]. *)
Definition reject (msg : string) (len : Z) : M unit := fun w =>
  if (Z.to_nat len <=? List.length (w_pending w))%nat
  then Returned (rejected msg len w)
  else Stopped ShortRead w.

(** The world after a payload of [n] bytes was decoded into [p]. *)
Definition decoded (p : png_struct) (n : nat) (w : world) : world :=
  set_pending (drop n (w_pending w)) (set_png p w).

(** Where the allocator puts the block of the commit. *)
Definition commit_loc (w : world) : loc := fresh (dom (w_heap (enter w))).

Definition committed (alphas : block) (w : world) : world :=
  let p := w_png w in
  let a := commit_loc w in
  set_info (info_commit a (num_trans p) (trans_color p) (w_info w))
    (set_heap (<[a := alphas]> (w_heap w)) w).

Definition discarded (w : world) : world :=
  set_png (with_num_trans 0 (w_png w)) (set_log (w_log w ++ [CrcError]) w).

(** The last part of a call, on the world [w] left by the decoding. *)
Definition settle (info_ptr : png_inforp) (alphas : block) (w : world)
  : res unit :=
  if w_crc_ok w then
    match info_ptr with
    | InfoNull => Normal tt w
    | InfoPtr => Normal tt (committed alphas w)
    end
  else Normal tt (discarded w).

Definition as_call (r : res unit) : res unit :=
  match r with
  | Normal _ w => Normal tt w
  | Returned w => Normal tt w
  | Stopped e w => Stopped e w
  end.

Definition gray_color (b0 b1 : byte) (p : png_struct) : png_struct :=
  with_trans_color (with_gray (be16 b0 b1) (trans_color p))
    (with_num_trans 1 p).

Definition rgb_color (b0 b1 b2 b3 b4 b5 : byte) (p : png_struct)
  : png_struct :=
  with_trans_color
    (with_blue (be16 b4 b5)
       (with_green (be16 b2 b3) (with_red (be16 b0 b1) (trans_color p))))
    (with_num_trans 1 p).

Definition palette_length_invalid (len : Z) (p : png_struct) : bool :=
  (len >? to_uint (num_palette p))
  || (len >? to_uint PNG_MAX_PALETTE_LENGTH)
  || (len =? 0).

Definition handle_closed (info_ptr : png_inforp) (len : Z) (w : world)
  : res unit :=
  let p := w_png w in
  if negb (have_header w) then Stopped (ChunkError "missing IHDR") w
  else if have_image_data w then as_call (reject "out of place" len w)
  else if info_not_null info_ptr && transparency_valid w then
    as_call (reject "duplicate" len w)
  else if color_type p =? PNG_COLOR_TYPE_GRAY then
    if negb (len =? 2) then as_call (reject "invalid" len w)
    else
      match w_pending w with
      | b0 :: b1 :: _ =>
          settle info_ptr [None] (decoded (gray_color b0 b1 p) 2 w)
      | _ => Stopped ShortRead w
      end
  else if color_type p =? PNG_COLOR_TYPE_RGB then
    if negb (len =? 6) then as_call (reject "invalid" len w)
    else
      match w_pending w with
      | b0 :: b1 :: b2 :: b3 :: b4 :: b5 :: _ =>
          settle info_ptr [None]
            (decoded (rgb_color b0 b1 b2 b3 b4 b5 p) 6 w)
      | _ => Stopped ShortRead w
      end
  else if color_type p =? PNG_COLOR_TYPE_PALETTE then
    if negb (have_palette w) then as_call (reject "out of place" len w)
    else if palette_length_invalid len p then
      as_call (reject "invalid" len w)
    else if (Z.to_nat len <=? List.length (w_pending w))%nat then
      settle info_ptr (Some <$> take (Z.to_nat len) (w_pending w))
        (decoded (with_num_trans (to_uint_16 len) p) (Z.to_nat len) w)
    else Stopped ShortRead w
  else as_call (reject "invalid with alpha channel" len w).

(** None of the three preconditions triggers. *)
Definition passes (info_ptr : png_inforp) (w : world) : Prop :=
  have_header w = true /\ have_image_data w = false /\
  info_not_null info_ptr && transparency_valid w = false.

(** The record a taken transparency chunk leaves in the [png_struct]: the
    count of transparent entries is not zero. *)
Definition trns_seen (w : world) : bool :=
  negb (num_trans (w_png w) =? 0).

(** The ways a call can end, in closed form: without the header; with
    the stream ending inside the chunk; with a benign error; and with the
    payload decoded into [p'] and the checksum still to be looked at. *)
Inductive ending (info_ptr : png_inforp) (len : Z) (w : world)
  : res unit -> Prop :=
  | end_missing_header :
      have_header w = false ->
      ending info_ptr len w (Stopped (ChunkError "missing IHDR") w)
  | end_short :
      have_header w = true -> ~ chunk_present len w ->
      ending info_ptr len w (Stopped ShortRead w)
  | end_rejected msg :
      have_header w = true -> chunk_present len w ->
      (msg = "duplicate"%string -> info_ptr = InfoPtr) ->
      ending info_ptr len w (Normal tt (rejected msg len w))
  | end_settled alphas p' :
      passes info_ptr w -> chunk_present len w ->
      mode p' = mode (w_png w) ->
      color_type p' = color_type (w_png w) ->
      num_palette p' = num_palette (w_png w) ->
      trans_alpha p' = trans_alpha (w_png w) ->
      0 < num_trans p' ->
      ending info_ptr len w
        (settle info_ptr alphas (decoded p' (Z.to_nat len) w)).

(** The records of the session and the store are as they were. *)
Definition unchanged (w w' : world) : Prop :=
  w_png w' = w_png w /\ w_info w' = w_info w /\ w_heap w' = w_heap w.

(** The all-or-nothing reading of a call: it commits a value whose checksum
    was verified, or the [png_struct] and the [png_info] are as on entry. *)
Definition all_or_nothing (info_ptr : png_inforp) (len : Z) (w : world)
  : Prop :=
  let w' := final (png_handle_tRNS info_ptr len w) in
  (w_crc_ok w = true /\ transparency_valid w' = true)
  \/ (w_png w' = w_png w /\ w_info w' = w_info w).

(** Something went wrong in the call [r] made on [w]: it was stopped, or it
    reported an error. *)
Definition reports_error (w : world) (r : res unit) : Prop :=
  match r with
  | Stopped _ _ => True
  | Normal _ w' => w_log w' <> w_log w
  | Returned _ => False
  end.

(** Every call that goes wrong has taken the whole chunk off the stream. *)
Definition drained_on_every_error : Prop :=
  forall info_ptr len w,
    0 <= len -> chunk_present len w ->
    reports_error w (png_handle_tRNS info_ptr len w) ->
    w_pending (final (png_handle_tRNS info_ptr len w))
    = drop (Z.to_nat len) (w_pending w).

(** The statement [m] never raises a chunk error. *)
Definition no_chunk_error {A} (m : M A) : Prop :=
  forall w msg w', m w <> Stopped (ChunkError msg) w'.

(** * The crash demonstration programs

    [process_data] of crashy.c and of crashy_fixed.c, and the fuzzing entry
    point of crashy_fuzzer.cc.  The input is the array [data] of [size]
    bytes, as [main] and the fuzzer hand it over; the state is the array
    [buffer] of the function and what was printed.  The array is not
    initialised: what its cells hold when the function is entered is given
    with the frame the call starts from.  A run stops at the first access
    the program has no right to make, and where printf needs a byte of the
    stack that the frame does not give. *)

Module Libc.

Inductive fault :=
  | BufferOverflow      (* a write past the end of [buffer] *)
  | BufferOverread      (* printf runs off the end of [buffer] *)
  | UnknownByte         (* printf comes to a cell of [buffer] of which the
                           frame does not say what it holds: the program
                           goes on from there in a way the model cannot
                           follow *)
  | OutOfBoundsRead     (* a read past the end of [data] *)
  | DivisionByZero
  | NullDereference.

Inductive printf_arg :=
  | SizeArg (n : nat)          (* %zu *)
  | StringArg (s : list byte)  (* %s *)
  | IntArg (z : Z).            (* %d *)

(** [buffer] is the array while the function runs, and before the call
    the bytes that lie on the stack where the array will be, [None] where
    they are not known. *)
Record frame := mk_frame {
  buffer : list (option byte);
  stdout : list (string * printf_arg)
}.

Inductive run (A : Type) :=
  | Ran (a : A) (f : frame)
  | Faulted (e : fault) (f : frame).
Arguments Ran {A} a f.
Arguments Faulted {A} e f.

Definition P (A : Type) : Type := frame -> run A.

Definition ret {A} (a : A) : P A := fun f => Ran a f.

Definition bind {A B} (m : P A) (k : A -> P B) : P B := fun f =>
  match m f with
  | Ran a f' => k a f'
  | Faulted e f' => Faulted e f'
  end.

Definition raise {A} (e : fault) : P A := fun f => Faulted e f.

Declare Scope prog_scope.
Delimit Scope prog_scope with prog.
Notation "x <- c ;; k" := (bind c (fun x => k))
  (at level 100, c at next level, right associativity) : prog_scope.
Notation "c ;; k" := (bind c (fun _ => k))
  (at level 100, right associativity) : prog_scope.
Local Open Scope prog_scope.

(** A string literal as the bytes before its terminator. *)
Definition lit (s : string) : list byte := list_byte_of_string s.

Definition chr (s : string) : byte :=
  match list_byte_of_string s with
  | b :: _ => b
  | [] => x00
  end.

(** [data[k]] *)
Definition read (data : list byte) (k : nat) : P byte :=
  match data !! k with
  | Some b => ret b
  | None => raise OutOfBoundsRead
  end.

Fixpoint compare_bytes (a b : list byte) : Z :=
  match a, b with
  | x :: a', y :: b' =>
      if byte_val x <? byte_val y then -1
      else if byte_val y <? byte_val x then 1
      else compare_bytes a' b'
  | _, _ => 0
  end.

(** [memcmp(a, b, n)]: the first [n] bytes of both arrays are compared as
    unsigned bytes. *)
Definition memcmp (a b : list byte) (n : nat) : P Z :=
  if (n <=? List.length a)%nat && (n <=? List.length b)%nat
  then ret (compare_bytes (take n a) (take n b))
  else raise OutOfBoundsRead.

(** [memcpy(buffer, src, n)] *)
Definition memcpy_buffer (src : list byte) (n : nat) : P unit := fun f =>
  if (n <=? List.length src)%nat then
    if (n <=? List.length (buffer f))%nat
    then Ran tt (mk_frame ((Some <$> take n src) ++ drop n (buffer f))
                   (stdout f))
    else Faulted BufferOverflow f
  else Faulted OutOfBoundsRead f.

(** [buffer[k] = b] *)
Definition store_buffer (k : nat) (b : byte) : P unit := fun f =>
  if (k <? List.length (buffer f))%nat
  then Ran tt (mk_frame (<[k := Some b]> (buffer f)) (stdout f))
  else Faulted BufferOverflow f.

(** What printf finds when it reads a string from the start of an array:
    the bytes before the first zero byte; or a cell whose byte is not
    known; or the end of the array with no zero byte before it. *)
Inductive scan :=
  | Text (s : list byte)
  | UnknownCell
  | PastEnd.

Fixpoint c_string (cells : list (option byte)) : scan :=
  match cells with
  | [] => PastEnd
  | None :: _ => UnknownCell
  | Some b :: rest =>
      if Byte.eqb b x00 then Text []
      else match c_string rest with
           | Text s => Text (b :: s)
           | r => r
           end
  end.

Definition printf (fmt : string) (arg : printf_arg) : P unit := fun f =>
  Ran tt (mk_frame (buffer f) (stdout f ++ [(fmt, arg)])).

(** [printf(fmt, buffer)] with a [%s] in [fmt].  Cells the function has
    not written are read like the others: they hold the bytes the stack
    held. *)
Definition printf_buffer (fmt : string) : P unit := fun f =>
  match c_string (buffer f) with
  | Text s => printf fmt (StringArg s) f
  | UnknownCell => Faulted UnknownByte f
  | PastEnd => Faulted BufferOverread f
  end.

(** [a / b] on [int]; the operands of the programs are far from the one
    quotient that overflows. *)
Definition int_div (a b : Z) : P Z :=
  if b =? 0 then raise DivisionByZero else ret (Z.quot a b).

(** [for (size_t i = first; i <= last; i++) body], run as [n] rounds from
    [i] on. *)
Fixpoint for_loop (n i : nat) (body : nat -> P unit) : P unit :=
  match n with
  | O => ret tt
  | S n' => body i ;; for_loop n' (S i) body
  end.

(** [b && rest], the right operand evaluated only when the left holds. *)
Definition and_then (b : bool) (rest : P bool) : P bool :=
  if b then rest else ret false.

(** The [n] cells an array of [n] bytes finds on the stack: those the
    frame gives, and unknown ones where it gives none. *)
Definition stack_cells (n : nat) (f : frame) : list (option byte) :=
  take n (buffer f ++ replicate n None).

(** A function with [char buffer[n]] among its locals: the array is there,
    not initialised, when the body starts, and is gone when the function is
    left. *)
Definition with_buffer {A} (n : nat) (body : P A) : P A := fun f =>
  match body (mk_frame (stack_cells n f) (stdout f)) with
  | Ran a f' => Ran a (mk_frame (buffer f) (stdout f'))
  | Faulted e f' => Faulted e (mk_frame (buffer f) (stdout f'))
  end.

(** A call of which nothing is known but that nothing was printed yet. *)
Definition start : frame := mk_frame [] [].


(** Lines 38 to 43 of crashy.c, 35 to 40 of crashy_fixed.c. *)
Definition division (data : list byte) (size : nat) : P unit :=
  c <- and_then (10 <=? size)%nat
         (d0 <- read data 0 ;;
          and_then (Byte.eqb d0 (chr "D"))
            (d1 <- read data 1 ;;
             and_then (Byte.eqb d1 (chr "I"))
               (d2 <- read data 2 ;;
                ret (Byte.eqb d2 (chr "V"))))) ;;
  if c : bool then
    d3 <- read data 3 ;;
    let divisor := byte_val d3 - byte_val (chr "0") in
    result <- int_div 100 divisor ;;
    printf "Division result: %d\n" (IntArg result)
  else ret tt.

(** Lines 45 to 49 of crashy.c, 42 to 46 of crashy_fixed.c. *)
Definition null_store (data : list byte) (size : nat) : P unit :=
  c <- and_then (8 <=? size)%nat
         (r <- memcmp data (lit "NULLPTR") 7 ;; ret (r =? 0)) ;;
  if c : bool then raise NullDereference else ret tt.

End Libc.

Module Crashy.
Import Libc.
Local Open Scope prog_scope.

(** crashy.c, lines 26 to 35: one round of the search. *)
Definition round (data : list byte) (i : nat) : P unit :=
  r <- memcmp (drop i data) (lit "CRASH") 5 ;;
  if r =? 0 then
    printf "Found crash trigger at position %zu\n" (SizeArg i) ;;
    memcpy_buffer data (List.length data) ;;
    printf_buffer "Buffer content: %s\n"
  else ret tt.

(** crashy.c, lines 15 to 50. *)
Definition process_data (data : list byte) : P unit :=
  let size := List.length data in
  with_buffer 16
    (if (size <? 5)%nat then ret tt
     else
       for_loop (size - 5 + 1) 0 (fun i =>
         r <- memcmp (drop i data) (lit "CRASH") 5 ;;
         if r =? 0 then
           printf "Found crash trigger at position %zu\n" (SizeArg i) ;;
           memcpy_buffer data size ;;
           printf_buffer "Buffer content: %s\n"
         else ret tt) ;;
       division data size ;;
       null_store data size).

End Crashy.

Module CrashyFixed.
Import Libc.
Local Open Scope prog_scope.

(** crashy_fixed.c, lines 23 to 32: one round of the search. *)
Definition round (data : list byte) (i : nat) : P unit :=
  r <- memcmp (drop i data) (lit "CRASH") 5 ;;
  if r =? 0 then
    printf "Found crash trigger at position %zu\n" (SizeArg i) ;;
    let copy_size :=
      if (List.length data <? 16)%nat then List.length data
      else (16 - 1)%nat in
    memcpy_buffer data copy_size ;;
    store_buffer copy_size x00 ;;
    printf_buffer "Buffer content (truncated): %s\n"
  else ret tt.

(** crashy_fixed.c, lines 14 to 47. *)
Definition process_data (data : list byte) : P unit :=
  let size := List.length data in
  with_buffer 16
    (if (size <? 5)%nat then ret tt
     else
       for_loop (size - 5 + 1) 0 (fun i =>
         r <- memcmp (drop i data) (lit "CRASH") 5 ;;
         if r =? 0 then
           printf "Found crash trigger at position %zu\n" (SizeArg i) ;;
           let copy_size := if (size <? 16)%nat then size else (16 - 1)%nat in
           memcpy_buffer data copy_size ;;
           store_buffer copy_size x00 ;;
           printf_buffer "Buffer content (truncated): %s\n"
         else ret tt) ;;
       division data size ;;
       null_store data size).

End CrashyFixed.

Module CrashyFuzzer.
Import Libc.
Local Open Scope prog_scope.


End CrashyFuzzer.

(** ** What the programs look for *)

(** The bytes of "CRASH" are at position [i] of [data]. *)
Definition occurs_at (data : list byte) (i : nat) : Prop :=
  take 5 (drop i data) = Libc.lit "CRASH".

Definition trigger_at (data : list byte) (i : nat) : bool :=
  (i + 5 <=? List.length data)%nat
  && (Libc.compare_bytes (take 5 (drop i data)) (Libc.lit "CRASH") =? 0).

(** The positions the search visits and finds "CRASH" at, in order. *)
Definition trigger_positions (data : list byte) : list nat :=
  List.filter (trigger_at data) (seq 0 (List.length data - 5 + 1)).

(** The bytes before the first zero byte. *)
Fixpoint until_nul (l : list byte) : list byte :=
  match l with
  | [] => []
  | b :: l' => if Byte.eqb b x00 then [] else b :: until_nul l'
  end.

(** How many bytes the fixed program copies: [copy_size]. *)
Definition fixed_copy_size (data : list byte) : nat :=
  if (List.length data <? 16)%nat then List.length data else 15%nat.

(** The text the fixed program shows for [data]. *)
Definition shown (data : list byte) : list byte :=
  until_nul (take (fixed_copy_size data) data).

(** What the search of the fixed program prints for the positions [ks]. *)
Definition fixed_lines (data : list byte) (ks : list nat)
  : list (string * Libc.printf_arg) :=
  flat_map
    (fun k =>
       [("Found crash trigger at position %zu\n"%string, Libc.SizeArg k);
        ("Buffer content (truncated): %s\n"%string,
         Libc.StringArg (shown data))])
    ks.



(** The first bytes of [data] are [pat]. *)
Definition starts_with (pat data : list byte) : Prop :=
  take (List.length pat) data = pat.

(** The divisor of line 40, when the division is reached. *)
Definition div_trigger (data : list byte) : option Z :=
  match data with
  | d0 :: d1 :: d2 :: d3 :: _ =>
      if (10 <=? List.length data)%nat && Byte.eqb d0 (Libc.chr "D")
         && Byte.eqb d1 (Libc.chr "I") && Byte.eqb d2 (Libc.chr "V")
      then Some (byte_val d3 - byte_val (Libc.chr "0"))
      else None
  | _ => None
  end.

(** The test of line 46. *)
Definition null_trigger (data : list byte) : bool :=
  (8 <=? List.length data)%nat
  && (Libc.compare_bytes (take 7 data) (Libc.lit "NULLPTR") =? 0).

(** The frame a run ends with. *)
Definition frame_of {A} (r : Libc.run A) : Libc.frame :=
  match r with Libc.Ran _ f | Libc.Faulted _ f => f end.

(** * Proofs *)

(** ** The store *)

Lemma fresh_unused (h : gmap loc block) : h !! fresh (dom h) = None.
Proof. apply not_elem_of_dom, is_fresh. Qed.

Lemma free_alloc (h : gmap loc block) (cells : block) :
  delete (fresh (dom h)) (<[fresh (dom h) := cells]> h) = h.
Proof. rewrite delete_insert_eq. apply delete_id, fresh_unused. Qed.

Lemma world_eta (w : world) :
  mk_world (w_png w) (w_info w) (w_heap w) (w_pending w) (w_crc_ok w)
    (w_log w) = w.
Proof. now destruct w. Qed.

(** ** The collaborators in closed form *)

Lemma png_crc_finish_run (skip : Z) (w : world) :
  chunk_present skip w ->
  png_crc_finish skip w
  = Normal (if w_crc_ok w then 0 else 1) (finished skip w).
Proof.
  unfold chunk_present, png_crc_finish, finished, crc_events. intros H.
  apply Nat.leb_le in H. rewrite H. cbn.
  destruct (w_crc_ok w); cbn; [| reflexivity].
  rewrite app_nil_r. unfold set_log, set_pending; cbn. reflexivity.
Qed.

Lemma png_crc_finish_short (skip : Z) (w : world) :
  ~ chunk_present skip w -> png_crc_finish skip w = Stopped ShortRead w.
Proof.
  unfold chunk_present, png_crc_finish. intros H.
  apply Nat.leb_nle in H. now rewrite H.
Qed.

(** The three statements by which every rejection leaves the handler. *)
Lemma reject_run (msg : string) (len : Z) (w : world) :
  chunk_present len w ->
  (png_crc_finish len ;; png_chunk_benign_error msg ;; return_) w
  = @Returned unit (rejected msg len w).
Proof.
  intros H. unfold bind. rewrite png_crc_finish_run by exact H. reflexivity.
Qed.

Lemma reject_short (msg : string) (len : Z) (w : world) :
  ~ chunk_present len w ->
  (png_crc_finish len ;; png_chunk_benign_error msg ;; return_) w
  = @Stopped unit ShortRead w.
Proof.
  intros H. unfold bind. rewrite png_crc_finish_short by exact H. reflexivity.
Qed.

(** ** Running the primitives *)

Lemma bind_normal {A B} (m : M A) (k : A -> M B) w a w' :
  m w = Normal a w' -> bind m k w = k a w'.
Proof. unfold bind. now intros ->. Qed.

Lemma bind_stopped {A B} (m : M A) (k : A -> M B) w e w' :
  m w = Stopped e w' -> bind m k w = Stopped e w'.
Proof. unfold bind. now intros ->. Qed.

Lemma store_bytes_run (l : loc) (bs : list byte) (cells : block) (w : world) :
  w_heap w !! l = Some cells ->
  (List.length bs <= List.length cells)%nat ->
  store_bytes (l, 0%nat) bs w
  = Normal tt
      (set_heap (<[l := (Some <$> bs) ++ drop (List.length bs) cells]>
                   (w_heap w)) w).
Proof.
  intros Hl Hn. unfold store_bytes. cbn [fst snd]. rewrite Hl.
  apply Nat.leb_le in Hn. cbn [Nat.add]. rewrite Hn. rewrite take_0.
  reflexivity.
Qed.

Lemma png_crc_read_run (l : loc) (n : Z) (cells : block) (w : world) :
  w_heap w !! l = Some cells ->
  chunk_present n w ->
  (Z.to_nat n <= List.length cells)%nat ->
  png_crc_read (l, 0%nat) n w
  = Normal tt
      (set_heap
         (<[l := (Some <$> take (Z.to_nat n) (w_pending w))
                   ++ drop (Z.to_nat n) cells]> (w_heap w))
         (set_pending (drop (Z.to_nat n) (w_pending w)) w)).
Proof.
  intros Hl Hp Hn. unfold png_crc_read, chunk_present in *.
  pose proof Hp as Hp'. apply Nat.leb_le in Hp'. rewrite Hp'.
  rewrite (store_bytes_run l _ cells); [| exact Hl |].
  - rewrite length_take, Nat.min_l by exact Hp. reflexivity.
  - rewrite length_take, Nat.min_l by exact Hp. exact Hn.
Qed.

Lemma png_crc_read_short (buf : ptr) (n : Z) (w : world) :
  ~ chunk_present n w -> png_crc_read buf n w = Stopped ShortRead w.
Proof.
  unfold chunk_present, png_crc_read. intros H.
  apply Nat.leb_nle in H. now rewrite H.
Qed.

Lemma load_cells_run (l : loc) (off n : nat) (cells : block) (w : world) :
  w_heap w !! l = Some cells ->
  (off + n <= List.length cells)%nat ->
  load_cells (l, off) n w = Normal (take n (drop off cells)) w.
Proof.
  intros Hl Hn. unfold load_cells. cbn [fst snd]. rewrite Hl.
  apply Nat.leb_le in Hn. now rewrite Hn.
Qed.

Lemma png_get_uint_16_run (l : loc) (off : nat) (cells : block) (b0 b1 : byte)
    (w : world) :
  w_heap w !! l = Some cells ->
  take 2 (drop off cells) = [Some b0; Some b1] ->
  png_get_uint_16 (l, off) w = Normal (be16 b0 b1) w.
Proof.
  intros Hl Hc. unfold png_get_uint_16.
  rewrite (bind_normal _ _ w (take 2 (drop off cells)) w).
  - rewrite Hc. reflexivity.
  - apply load_cells_run; [exact Hl |].
    apply (f_equal (@List.length _)) in Hc. rewrite length_take, length_drop in Hc.
    change (List.length [Some b0; Some b1]) with 2%nat in Hc. lia.
Qed.

Lemma reject_closed (msg : string) (len : Z) (w : world) :
  (png_crc_finish len ;; png_chunk_benign_error msg ;; return_) w
  = reject msg len w.
Proof.
  unfold reject.
  destruct (Nat.leb_spec (Z.to_nat len) (List.length (w_pending w))) as [H | H].
  - now apply reject_run.
  - apply reject_short. unfold chunk_present. lia.
Qed.

Ltac wsimpl :=
  unfold free_block, set_png, set_info, set_heap, set_pending, set_log;
  cbn [w_png w_info w_heap w_pending w_crc_ok w_log map_world fst snd].

Ltac heap_lookup :=
  wsimpl; rewrite ?insert_insert_eq; apply lookup_insert_eq.

(** Leaving a block gives back the store it was entered with, whatever was
    written to the array meanwhile. *)
Lemma free_alloc2 (h : gmap loc block) (c1 c2 : block) :
  delete (fresh (dom h)) (<[fresh (dom h) := c1]> (<[fresh (dom h) := c2]> h))
  = h.
Proof. rewrite insert_insert_eq. apply free_alloc. Qed.

Lemma bind_reject {B} (msg : string) (len : Z) (k : unit -> M B) (w : world) :
  bind (png_crc_finish len ;; png_chunk_benign_error msg ;; return_) k w
  = match reject msg len w with
    | Normal _ w' | Returned w' => Returned w'
    | Stopped e w' => Stopped e w'
    end.
Proof.
  unfold bind at 1. rewrite reject_closed. unfold reject.
  now destruct (_ <=? _)%nat.
Qed.

Lemma reject_unit (msg : string) (len : Z) (w : world) :
  match reject msg len w with
  | Normal _ w' | Returned w' => Returned w'
  | Stopped e w' => Stopped e w'
  end = reject msg len w.
Proof. unfold reject. now destruct (_ <=? _)%nat. Qed.

Lemma leave_reject (msg : string) (len : Z) (cells : block) (w : world) :
  map_world (free_block (fresh (dom (w_heap w))))
    (reject msg len
       (set_heap (<[fresh (dom (w_heap w)) := cells]> (w_heap w)) w))
  = reject msg len w.
Proof.
  unfold reject. wsimpl.
  destruct (_ <=? _)%nat; wsimpl.
  - unfold rejected, finished, crc_events. wsimpl. now rewrite free_alloc.
  - rewrite free_alloc. now rewrite world_eta.
Qed.

Lemma tRNS_gray_closed (len : Z) (w : world) :
  tRNS_gray len w
  = if negb (len =? 2) then reject "invalid" len w
    else
      match w_pending w with
      | b0 :: b1 :: _ => Normal tt (decoded (gray_color b0 b1 (w_png w)) 2 w)
      | _ => Stopped ShortRead w
      end.
Proof.
  unfold tRNS_gray, with_array. cbv zeta.
  destruct (len =? 2) eqn:E; cbn [negb].
  - apply Z.eqb_eq in E. subst len.
    set (l := fresh (dom (w_heap w))). set (W := set_heap _ w).
    rewrite (bind_normal _ _ W tt W) by reflexivity.
    assert (HW : w_heap W !! l = Some [None; None]) by apply lookup_insert_eq.
    destruct (w_pending w) as [| b0 [| b1 rest]] eqn:Hp.
    1, 2: rewrite (bind_stopped _ _ W ShortRead W)
        by (apply png_crc_read_short; unfold chunk_present, W; wsimpl;
            rewrite Hp; cbn; lia);
      subst W l; wsimpl; now rewrite free_alloc, world_eta.
    erewrite bind_normal
      by (apply (png_crc_read_run l 2 [None; None]);
          [exact HW | unfold chunk_present, W; wsimpl; rewrite Hp; cbn; lia
          | cbn; lia]).
    erewrite bind_normal by reflexivity.
    erewrite bind_normal
      by (eapply png_get_uint_16_run; [unfold upd_png, W; heap_lookup |];
          unfold W; wsimpl; rewrite Hp; reflexivity).
    unfold upd_png, decoded, gray_color, W, l. wsimpl. rewrite Hp.
    rewrite free_alloc2. reflexivity.
  - rewrite bind_reject, reject_unit. apply leave_reject.
Qed.

(** ** Entering and leaving the handler *)

Lemma png_handle_tRNS_unfold (info_ptr : png_inforp) (len : Z) (w : world) :
  png_handle_tRNS info_ptr len w
  = match (tRNS_preconditions info_ptr len ;;
           tRNS_decode (readbuf_loc w, 0%nat) len ;;
           tRNS_commit info_ptr (readbuf_loc w, 0%nat)) (enter w) with
    | Normal _ w' => Normal tt (free_block (readbuf_loc w) w')
    | Returned w' => Normal tt (free_block (readbuf_loc w) w')
    | Stopped e w' => Stopped e (free_block (readbuf_loc w) w')
    end.
Proof.
  unfold png_handle_tRNS, call, with_array, map_world, enter, readbuf_loc.
  cbv zeta.
  destruct ((tRNS_preconditions info_ptr len ;; _) _); reflexivity.
Qed.

Lemma leave_enter (w : world) : free_block (readbuf_loc w) (enter w) = w.
Proof.
  unfold free_block, enter, readbuf_loc, set_heap; cbn.
  rewrite free_alloc. apply world_eta.
Qed.

Lemma leave_rejected (msg : string) (len : Z) (w : world) :
  free_block (readbuf_loc w) (rejected msg len (enter w)) = rejected msg len w.
Proof.
  unfold free_block, rejected, finished, crc_events, enter, readbuf_loc,
    set_heap, set_log, set_pending; cbn.
  rewrite free_alloc. reflexivity.
Qed.

(** ** The preconditions *)

Lemma pre_missing_header (info_ptr : png_inforp) (len : Z) (w : world) :
  have_header w = false ->
  tRNS_preconditions info_ptr len w = Stopped (ChunkError "missing IHDR") w.
Proof.
  unfold have_header, tRNS_preconditions, bind, get_png, get_info.
  intros H. apply negb_false_iff in H. rewrite H. reflexivity.
Qed.

Lemma pre_image_data (info_ptr : png_inforp) (len : Z) (w : world) :
  have_header w = true -> have_image_data w = true ->
  tRNS_preconditions info_ptr len w
  = (png_crc_finish len ;; png_chunk_benign_error "out of place" ;; return_) w.
Proof.
  unfold have_header, have_image_data, tRNS_preconditions.
  intros H1 H2. apply negb_true_iff in H1.
  unfold bind at 1 2, get_png, get_info. rewrite H1, H2. reflexivity.
Qed.

Lemma pre_duplicate (len : Z) (w : world) :
  have_header w = true -> have_image_data w = false ->
  transparency_valid w = true ->
  tRNS_preconditions InfoPtr len w
  = (png_crc_finish len ;; png_chunk_benign_error "duplicate" ;; return_) w.
Proof.
  unfold have_header, have_image_data, transparency_valid, tRNS_preconditions.
  intros H1 H2 H3. apply negb_true_iff in H1.
  unfold bind at 1 2, get_png, get_info. rewrite H1, H2, H3. reflexivity.
Qed.

Lemma pre_pass (info_ptr : png_inforp) (len : Z) (w : world) :
  have_header w = true -> have_image_data w = false ->
  info_not_null info_ptr && transparency_valid w = false ->
  tRNS_preconditions info_ptr len w = Normal tt w.
Proof.
  unfold have_header, have_image_data, transparency_valid, tRNS_preconditions.
  intros H1 H2 H3. apply negb_true_iff in H1.
  unfold bind, get_png, get_info. rewrite H1, H2, H3. reflexivity.
Qed.

(** ** Statements that never raise a chunk error *)

Lemma nce_bind {A B} (m : M A) (k : A -> M B) :
  no_chunk_error m -> (forall a, no_chunk_error (k a)) ->
  no_chunk_error (bind m k).
Proof.
  intros Hm Hk w msg w'. unfold bind.
  destruct (m w) as [a w1 | w1 | e w1] eqn:E.
  - apply Hk.
  - discriminate.
  - intros H; inversion H; subst. now apply (Hm w msg w').
Qed.

Lemma nce_if {A} (b : bool) (m1 m2 : M A) :
  no_chunk_error m1 -> no_chunk_error m2 ->
  no_chunk_error (if b then m1 else m2).
Proof. now destruct b. Qed.

Lemma nce_ret {A} (a : A) : no_chunk_error (ret a).
Proof. intros w msg w'; discriminate. Qed.

Lemma nce_return {A} : no_chunk_error (@return_ A).
Proof. intros w msg w'; discriminate. Qed.

Lemma nce_get_png : no_chunk_error get_png.
Proof. intros w msg w'; discriminate. Qed.

Lemma nce_upd_png f : no_chunk_error (upd_png f).
Proof. intros w msg w'; discriminate. Qed.

Lemma nce_upd_info f : no_chunk_error (upd_info f).
Proof. intros w msg w'; discriminate. Qed.

Lemma nce_benign msg : no_chunk_error (png_chunk_benign_error msg).
Proof. intros w m w'; discriminate. Qed.

Lemma nce_fault {A} : no_chunk_error (@stop_with A MemFault).
Proof. intros w msg w'; discriminate. Qed.

Lemma nce_malloc cells : no_chunk_error (malloc cells).
Proof. intros w msg w'; discriminate. Qed.

Lemma nce_load_cells p n : no_chunk_error (load_cells p n).
Proof.
  intros w msg w'. unfold load_cells.
  destruct (w_heap w !! p.1); [destruct (_ <=? _)%nat |]; discriminate.
Qed.

Lemma nce_store_bytes p bs : no_chunk_error (store_bytes p bs).
Proof.
  intros w msg w'. unfold store_bytes.
  destruct (w_heap w !! p.1); [destruct (_ <=? _)%nat |]; discriminate.
Qed.

Lemma nce_png_crc_read buf n : no_chunk_error (png_crc_read buf n).
Proof.
  intros w msg w'. unfold png_crc_read.
  destruct (_ <=? _)%nat; [apply nce_store_bytes | discriminate].
Qed.

Lemma nce_png_crc_finish skip : no_chunk_error (png_crc_finish skip).
Proof.
  intros w msg w'. unfold png_crc_finish.
  destruct (_ <=? _)%nat; [cbn; destruct (w_crc_ok w) |]; discriminate.
Qed.

Lemma nce_png_get_uint_16 buf : no_chunk_error (png_get_uint_16 buf).
Proof.
  unfold png_get_uint_16. apply nce_bind; [apply nce_load_cells |].
  intros cells.
  repeat (match goal with
          | |- no_chunk_error (match ?c with _ => _ end) => destruct c
          end);
    first [apply nce_ret | apply nce_fault].
Qed.

Lemma nce_with_array {A} n (body : ptr -> M A) :
  (forall p, no_chunk_error (body p)) -> no_chunk_error (with_array n body).
Proof.
  intros H w msg w'. unfold with_array, map_world. cbv zeta.
  destruct (body _ _) eqn:E; try discriminate.
  intros H'; inversion H'; subst. now apply H in E.
Qed.

Lemma nce_png_set_tRNS info_ptr buf n c :
  no_chunk_error (png_set_tRNS info_ptr buf n c).
Proof.
  destruct info_ptr; cbn; [apply nce_ret |].
  repeat first [apply nce_bind; [| intros ?] | apply nce_load_cells
               | apply nce_malloc | apply nce_upd_info | apply nce_upd_png].
Qed.

Create HintDb nce.

#[local] Hint Resolve nce_ret nce_return nce_get_png nce_upd_png nce_upd_info
  nce_benign nce_fault nce_malloc nce_load_cells nce_store_bytes
  nce_png_crc_read nce_png_crc_finish nce_png_get_uint_16 nce_png_set_tRNS
  : nce.

Ltac nce_steps :=
  repeat first
    [ solve [auto with nce]
    | apply nce_bind; [| intros ?]
    | apply nce_if
    | apply nce_with_array; intros ? ].

Lemma nce_tRNS_decode readbuf len : no_chunk_error (tRNS_decode readbuf len).
Proof.
  unfold tRNS_decode, tRNS_gray, tRNS_rgb, tRNS_palette. nce_steps.
Qed.

Lemma nce_tRNS_commit info_ptr readbuf :
  no_chunk_error (tRNS_commit info_ptr readbuf).
Proof. unfold tRNS_commit. nce_steps. Qed.

(** A chunk error of the preconditions is the missing header. *)
Lemma pre_chunk_error (info_ptr : png_inforp) (len : Z) (w : world) msg w' :
  tRNS_preconditions info_ptr len w = Stopped (ChunkError msg) w' ->
  msg = "missing IHDR"%string /\ have_header w = false.
Proof.
  destruct (have_header w) eqn:H1.
  - unfold have_header in H1. apply negb_true_iff in H1.
    unfold tRNS_preconditions, bind, get_png, get_info. rewrite H1.
    assert (R : forall m, no_chunk_error
              (png_crc_finish len ;; png_chunk_benign_error m ;; @return_ unit))
      by (intros; nce_steps).
    intros H. exfalso. revert H.
    repeat match goal with
           | |- context [if ?b then _ else _] => destruct b
           end;
      first [discriminate | apply R].
  - rewrite pre_missing_header by exact H1. intros H; inversion H. auto.
Qed.

(** ** The handler when a precondition fails *)

Lemma handle_missing_header (info_ptr : png_inforp) (len : Z) (w : world) :
  have_header w = false ->
  png_handle_tRNS info_ptr len w = Stopped (ChunkError "missing IHDR") w.
Proof.
  intros H. rewrite png_handle_tRNS_unfold. unfold bind at 1.
  rewrite (pre_missing_header _ _ (enter w)) by exact H.
  now rewrite leave_enter.
Qed.

Lemma handle_image_data (info_ptr : png_inforp) (len : Z) (w : world) :
  have_header w = true -> have_image_data w = true -> chunk_present len w ->
  png_handle_tRNS info_ptr len w = Normal tt (rejected "out of place" len w).
Proof.
  intros H1 H2 Hp. rewrite png_handle_tRNS_unfold. unfold bind at 1.
  rewrite (pre_image_data _ _ (enter w)) by assumption.
  rewrite reject_run by exact Hp. now rewrite leave_rejected.
Qed.

Lemma handle_duplicate (len : Z) (w : world) :
  have_header w = true -> have_image_data w = false ->
  transparency_valid w = true -> chunk_present len w ->
  png_handle_tRNS InfoPtr len w = Normal tt (rejected "duplicate" len w).
Proof.
  intros H1 H2 H3 Hp. rewrite png_handle_tRNS_unfold. unfold bind at 1.
  rewrite (pre_duplicate _ (enter w)) by assumption.
  rewrite reject_run by exact Hp. now rewrite leave_rejected.
Qed.

Lemma handle_chunk_error (info_ptr : png_inforp) (len : Z) (w : world) msg w' :
  png_handle_tRNS info_ptr len w = Stopped (ChunkError msg) w' ->
  msg = "missing IHDR"%string /\ have_header w = false.
Proof.
  rewrite png_handle_tRNS_unfold.
  destruct (bind _ _ (enter w)) as [a w1 | w1 | e w1] eqn:E; try discriminate.
  intros H; inversion H; subst e. clear H.
  revert E. unfold bind at 1.
  destruct (tRNS_preconditions info_ptr len (enter w)) as [a w2 | w2 | e w2]
    eqn:P; try discriminate.
  - intros E. exfalso. revert E.
    apply (nce_bind (tRNS_decode (readbuf_loc w, 0%nat) len)
             (fun _ => tRNS_commit info_ptr (readbuf_loc w, 0%nat))).
    + apply nce_tRNS_decode.
    + intros _. apply nce_tRNS_commit.
  - intros E; inversion E; subst.
    apply (pre_chunk_error info_ptr len (enter w) msg w1 P).
Qed.

(** The preconditions let the decoding begin exactly when none of them
    triggers, and then they have changed nothing. *)
Lemma pre_pass_iff (info_ptr : png_inforp) (len : Z) (w w' : world) :
  tRNS_preconditions info_ptr len w = Normal tt w' <->
  (have_header w = true /\ have_image_data w = false /\
   info_not_null info_ptr && transparency_valid w = false) /\ w' = w.
Proof.
  split.
  - unfold have_header, have_image_data, transparency_valid,
      tRNS_preconditions, bind, get_png, get_info, png_chunk_error, stop_with.
    destruct (_ =? 0) eqn:H1; [discriminate |].
    destruct (negb _) eqn:H2.
    { destruct (png_crc_finish len w); [cbn | |]; discriminate. }
    destruct (_ && _) eqn:H3.
    { destruct (png_crc_finish len w); [cbn | |]; discriminate. }
    intros H; inversion H. auto.
  - intros [(H1 & H2 & H3) ->]. now apply pre_pass.
Qed.

(** ** The decoding in closed form *)

Lemma tRNS_rgb_closed (len : Z) (w : world) :
  tRNS_rgb len w
  = if negb (len =? 6) then reject "invalid" len w
    else
      match w_pending w with
      | b0 :: b1 :: b2 :: b3 :: b4 :: b5 :: _ =>
          Normal tt (decoded (rgb_color b0 b1 b2 b3 b4 b5 (w_png w)) 6 w)
      | _ => Stopped ShortRead w
      end.
Proof.
  unfold tRNS_rgb, with_array. cbv zeta.
  destruct (len =? 6) eqn:E; cbn [negb].
  - apply Z.eqb_eq in E. subst len.
    set (l := fresh (dom (w_heap w))). set (W := set_heap _ w).
    rewrite (bind_normal _ _ W tt W) by reflexivity.
    assert (HW : w_heap W !! l = Some (replicate 6 None))
      by apply lookup_insert_eq.
    destruct (w_pending w)
      as [| b0 [| b1 [| b2 [| b3 [| b4 [| b5 rest]]]]]] eqn:Hp.
    1, 2, 3, 4, 5, 6: rewrite (bind_stopped _ _ W ShortRead W)
        by (apply png_crc_read_short; unfold chunk_present, W; wsimpl;
            rewrite Hp; cbn; lia);
      subst W l; wsimpl; now rewrite free_alloc, world_eta.
    erewrite bind_normal
      by (apply (png_crc_read_run l 6 (replicate 6 None));
          [exact HW | unfold chunk_present, W; wsimpl; rewrite Hp; cbn; lia
          | cbn; lia]).
    erewrite bind_normal by reflexivity.
    erewrite bind_normal
      by (eapply png_get_uint_16_run; [unfold upd_png, W; heap_lookup |];
          unfold W; wsimpl; rewrite Hp; reflexivity).
    erewrite bind_normal by reflexivity.
    erewrite bind_normal
      by (eapply png_get_uint_16_run; [unfold upd_png, W; heap_lookup |];
          unfold W; wsimpl; rewrite Hp; reflexivity).
    erewrite bind_normal by reflexivity.
    erewrite bind_normal
      by (eapply png_get_uint_16_run; [unfold upd_png, W; heap_lookup |];
          unfold W; wsimpl; rewrite Hp; reflexivity).
    unfold upd_png, decoded, rgb_color, W, l. wsimpl. rewrite Hp.
    rewrite free_alloc2. reflexivity.
  - rewrite bind_reject, reject_unit. apply leave_reject.
Qed.

Lemma palette_length_ok (len : Z) (p : png_struct) :
  palette_length_invalid len p = false ->
  len <> 0 /\ len <= 256 /\ len <= to_uint (num_palette p).
Proof.
  unfold palette_length_invalid, to_uint, PNG_MAX_PALETTE_LENGTH.
  change (256 mod 2 ^ 32) with 256.
  intros H. apply orb_false_iff in H as [H H0].
  apply orb_false_iff in H as [H1 H2].
  apply Z.eqb_neq in H0. rewrite Z.gtb_ltb in H1, H2.
  apply Z.ltb_ge in H1, H2.
  auto.
Qed.

Lemma tRNS_palette_closed (l : loc) (len : Z) (w : world) :
  w_heap w !! l = Some (replicate 256 None) ->
  tRNS_palette (l, 0%nat) len w
  = if negb (have_palette w) then reject "out of place" len w
    else if palette_length_invalid len (w_png w) then reject "invalid" len w
    else if (Z.to_nat len <=? List.length (w_pending w))%nat then
      Normal tt
        (set_heap
           (<[l := (Some <$> take (Z.to_nat len) (w_pending w))
                     ++ drop (Z.to_nat len) (replicate 256 None)]> (w_heap w))
           (decoded (with_num_trans (to_uint_16 len) (w_png w))
              (Z.to_nat len) w))
    else Stopped ShortRead w.
Proof.
  intros Hl. unfold tRNS_palette, have_palette.
  rewrite (bind_normal _ _ w (w_png w) w) by reflexivity.
  destruct (Z.land (mode (w_png w)) PNG_HAVE_PLTE =? 0) eqn:E1; cbn [negb].
  { now rewrite bind_reject, reject_unit. }
  rewrite (bind_normal _ _ w tt w) by reflexivity.
  fold (palette_length_invalid len (w_png w)).
  destruct (palette_length_invalid len (w_png w)) eqn:E2.
  { now rewrite bind_reject, reject_unit. }
  rewrite (bind_normal _ _ w tt w) by reflexivity.
  apply palette_length_ok in E2.
  destruct (Nat.leb_spec (Z.to_nat len) (List.length (w_pending w))) as [H | H].
  - erewrite bind_normal
      by (apply (png_crc_read_run l len (replicate 256 None));
          [exact Hl | exact H | rewrite length_replicate; lia]).
    unfold upd_png, decoded. wsimpl. reflexivity.
  - apply bind_stopped, png_crc_read_short. unfold chunk_present. lia.
Qed.

Lemma tRNS_decode_closed (l : loc) (len : Z) (w : world) :
  w_heap w !! l = Some (replicate 256 None) ->
  tRNS_decode (l, 0%nat) len w
  = if color_type (w_png w) =? PNG_COLOR_TYPE_GRAY then tRNS_gray len w
    else if color_type (w_png w) =? PNG_COLOR_TYPE_RGB then tRNS_rgb len w
    else if color_type (w_png w) =? PNG_COLOR_TYPE_PALETTE then
      tRNS_palette (l, 0%nat) len w
    else reject "invalid with alpha channel" len w.
Proof.
  intros Hl. unfold tRNS_decode.
  rewrite (bind_normal _ _ w (w_png w) w) by reflexivity.
  repeat (destruct (_ =? _); [reflexivity |]).
  apply reject_closed.
Qed.

Lemma png_crc_finish_0 (w : world) :
  png_crc_finish 0 w
  = if w_crc_ok w then Normal 0 w
    else Normal 1 (set_log (w_log w ++ [CrcError]) w).
Proof.
  unfold png_crc_finish. change (Z.to_nat 0) with 0%nat. cbn [Nat.leb].
  rewrite drop_0. wsimpl. rewrite world_eta. destruct w; reflexivity.
Qed.

Lemma tRNS_commit_closed (info_ptr : png_inforp) (l : loc) (cells : block)
    (w : world) :
  w_heap w !! l = Some cells ->
  (Z.to_nat (num_trans (w_png w)) <= List.length cells)%nat ->
  tRNS_commit info_ptr (l, 0%nat) w
  = if w_crc_ok w then
      match info_ptr with
      | InfoNull => Normal tt w
      | InfoPtr =>
          let p := w_png w in
          let a := fresh (dom (w_heap w)) in
          Normal tt
            (set_info
               (info_commit a (num_trans p) (trans_color p) (w_info w))
               (set_heap
                  (<[a := take (Z.to_nat (num_trans p)) cells]> (w_heap w))
                  w))
      end
    else Returned (discarded w).
Proof.
  intros Hl Hn. unfold tRNS_commit.
  unfold bind at 1. rewrite png_crc_finish_0.
  destruct (w_crc_ok w) eqn:Hc.
  - change (negb (0 =? 0)) with false. cbv iota.
    rewrite (bind_normal _ _ w tt w) by reflexivity.
    rewrite (bind_normal _ _ w (w_png w) w) by reflexivity.
    destruct info_ptr; [reflexivity |]. unfold png_set_tRNS.
    erewrite bind_normal by (apply (load_cells_run l 0 _ cells); [exact Hl | exact Hn]).
    rewrite drop_0. reflexivity.
  - change (negb (1 =? 0)) with true. cbv iota.
    reflexivity.
Qed.

(** ** The handler computes its closed form *)

Lemma tRNS_preconditions_closed (info_ptr : png_inforp) (len : Z) (w : world) :
  tRNS_preconditions info_ptr len w
  = if negb (have_header w) then Stopped (ChunkError "missing IHDR") w
    else if have_image_data w then reject "out of place" len w
    else if info_not_null info_ptr && transparency_valid w then
      reject "duplicate" len w
    else Normal tt w.
Proof.
  unfold tRNS_preconditions, have_header, have_image_data, transparency_valid.
  rewrite (bind_normal _ _ w (w_png w) w) by reflexivity.
  rewrite (bind_normal _ _ w (w_info w) w) by reflexivity.
  destruct (_ =? 0); cbn [negb]; [reflexivity |].
  destruct (negb _); [apply reject_closed |].
  destruct (_ && _); [apply reject_closed | reflexivity].
Qed.

Lemma png_handle_tRNS_call (info_ptr : png_inforp) (len : Z) (w : world) :
  png_handle_tRNS info_ptr len w
  = as_call
      (map_world (free_block (readbuf_loc w))
         ((tRNS_preconditions info_ptr len ;;
           tRNS_decode (readbuf_loc w, 0%nat) len ;;
           tRNS_commit info_ptr (readbuf_loc w, 0%nat)) (enter w))).
Proof. reflexivity. Qed.

Lemma bind_reject_closed (msg : string) (len : Z) (k : unit -> M unit)
    (w : world) :
  as_call (map_world (free_block (readbuf_loc w))
             (match reject msg len (enter w) with
              | Normal a w' => k a w'
              | Returned w' => Returned w'
              | Stopped e w' => Stopped e w'
              end))
  = as_call (reject msg len w).
Proof.
  rewrite <- (leave_reject msg len
                (replicate (Z.to_nat PNG_MAX_PALETTE_LENGTH) None) w).
  unfold enter, readbuf_loc, reject.
  now destruct (_ <=? _)%nat.
Qed.

Lemma enter_lookup (w : world) :
  w_heap (enter w) !! readbuf_loc w = Some (replicate 256 None).
Proof. apply lookup_insert_eq. Qed.

(** The block of the commit is not the array: the array is in use when the
    block is allocated. *)
Lemma commit_loc_fresh (h : gmap loc block) (c : block) :
  fresh (dom (<[fresh (dom h) := c]> h)) <> fresh (dom h).
Proof.
  intros E.
  pose proof (fresh_unused (<[fresh (dom h) := c]> h)) as H.
  rewrite E, lookup_insert_eq in H. discriminate.
Qed.

Lemma commit_loc_indep (h : gmap loc block) (c1 c2 : block) :
  fresh (dom (<[fresh (dom h) := c1]> h))
  = fresh (dom (<[fresh (dom h) := c2]> h)).
Proof. now rewrite !dom_insert_L. Qed.

Lemma heap_after_commit (h : gmap loc block) (c cells : block) :
  delete (fresh (dom h))
    (<[fresh (dom (<[fresh (dom h) := c]> h)) := cells]>
       (<[fresh (dom h) := c]> h))
  = <[fresh (dom (<[fresh (dom h) := c]> h)) := cells]> h.
Proof.
  rewrite delete_insert_ne by (apply not_eq_sym, commit_loc_fresh).
  now rewrite free_alloc.
Qed.

Lemma settle_closed (info_ptr : png_inforp) (cells : block) (p' : png_struct)
    (n : nat) (w : world) :
  (Z.to_nat (num_trans p') <= List.length cells)%nat ->
  as_call
    (map_world (free_block (readbuf_loc w))
       (tRNS_commit info_ptr (readbuf_loc w, 0%nat)
          (set_heap (<[readbuf_loc w := cells]> (w_heap w)) (decoded p' n w))))
  = settle info_ptr (take (Z.to_nat (num_trans p')) cells) (decoded p' n w).
Proof.
  intros Hn.
  rewrite (tRNS_commit_closed info_ptr (readbuf_loc w) cells);
    [| apply lookup_insert_eq | exact Hn].
  unfold settle, committed, discarded, commit_loc, enter, readbuf_loc, decoded.
  wsimpl. cbv zeta.
  destruct (w_crc_ok w); [destruct info_ptr |]; cbn [map_world as_call]; wsimpl.
  - now rewrite free_alloc.
  - rewrite heap_after_commit.
    rewrite (commit_loc_indep (w_heap w) cells
               (replicate (Z.to_nat PNG_MAX_PALETTE_LENGTH) None)).
    reflexivity.
  - now rewrite free_alloc.
Qed.

Lemma leave_stopped (e : stop) (w : world) :
  as_call (map_world (free_block (readbuf_loc w)) (Stopped e (enter w)))
  = Stopped e w.
Proof. cbn [map_world as_call]. now rewrite leave_enter. Qed.

(** The handler computes the closed form. *)
Theorem png_handle_tRNS_closed (info_ptr : png_inforp) (len : Z) (w : world) :
  0 <= len ->
  png_handle_tRNS info_ptr len w = handle_closed info_ptr len w.
Proof.
  intros Hlen. rewrite png_handle_tRNS_call. unfold handle_closed. cbv zeta.
  unfold bind at 1. rewrite tRNS_preconditions_closed.
  change (have_header (enter w)) with (have_header w).
  change (have_image_data (enter w)) with (have_image_data w).
  change (transparency_valid (enter w)) with (transparency_valid w).
  destruct (have_header w); cbn [negb]; [| apply leave_stopped].
  destruct (have_image_data w); [apply bind_reject_closed |].
  destruct (_ && _); [apply bind_reject_closed |].
  unfold bind at 1. rewrite tRNS_decode_closed by apply enter_lookup.
  change (w_png (enter w)) with (w_png w).
  destruct (color_type (w_png w) =? PNG_COLOR_TYPE_GRAY).
  { rewrite tRNS_gray_closed.
    destruct (negb (len =? 2)); [apply bind_reject_closed |].
    change (w_pending (enter w)) with (w_pending w).
    destruct (w_pending w) as [| b0 [| b1 rest]];
      try apply leave_stopped.
    apply (settle_closed info_ptr
             (replicate (Z.to_nat PNG_MAX_PALETTE_LENGTH) None)
             (gray_color b0 b1 (w_png w)) 2 w).
    rewrite length_replicate. apply Nat.leb_le. reflexivity. }
  destruct (color_type (w_png w) =? PNG_COLOR_TYPE_RGB).
  { rewrite tRNS_rgb_closed.
    destruct (negb (len =? 6)); [apply bind_reject_closed |].
    change (w_pending (enter w)) with (w_pending w).
    destruct (w_pending w) as [| b0 [| b1 [| b2 [| b3 [| b4 [| b5 rest]]]]]];
      try apply leave_stopped.
    apply (settle_closed info_ptr
             (replicate (Z.to_nat PNG_MAX_PALETTE_LENGTH) None)
             (rgb_color b0 b1 b2 b3 b4 b5 (w_png w)) 6 w).
    rewrite length_replicate. apply Nat.leb_le. reflexivity. }
  destruct (color_type (w_png w) =? PNG_COLOR_TYPE_PALETTE);
    [| apply bind_reject_closed].
  rewrite tRNS_palette_closed by apply enter_lookup.
  change (have_palette (enter w)) with (have_palette w).
  change (w_png (enter w)) with (w_png w).
  change (w_pending (enter w)) with (w_pending w).
  destruct (negb (have_palette w)); [apply bind_reject_closed |].
  destruct (palette_length_invalid len (w_png w)) eqn:E;
    [apply bind_reject_closed |].
  apply palette_length_ok in E. destruct E as (E0 & E1 & E2).
  destruct (Nat.leb_spec (Z.to_nat len) (List.length (w_pending w)))
    as [H | H]; [| apply leave_stopped].
  assert (Hu : to_uint_16 len = len)
    by (unfold to_uint_16; apply Z.mod_small; lia).
  pose proof (settle_closed info_ptr
                ((Some <$> take (Z.to_nat len) (w_pending w))
                   ++ drop (Z.to_nat len) (replicate 256 None))
                (with_num_trans (to_uint_16 len) (w_png w)) (Z.to_nat len) w)
    as S.
  assert (W : set_heap
                (<[readbuf_loc w := (Some <$> take (Z.to_nat len) (w_pending w))
                                      ++ drop (Z.to_nat len) (replicate 256 None)]>
                   (w_heap (enter w)))
                (decoded (with_num_trans (to_uint_16 len) (w_png w))
                   (Z.to_nat len) (enter w))
              = set_heap
                  (<[readbuf_loc w := (Some <$> take (Z.to_nat len) (w_pending w))
                                        ++ drop (Z.to_nat len) (replicate 256 None)]>
                     (w_heap w))
                  (decoded (with_num_trans (to_uint_16 len) (w_png w))
                     (Z.to_nat len) w)).
  { unfold enter, decoded. wsimpl. now rewrite insert_insert_eq. }
  rewrite W, S; cbn [num_trans with_num_trans]; rewrite Hu.
  - f_equal. apply take_app_length'.
    rewrite length_fmap, length_take. lia.
  - rewrite length_app, length_fmap, length_take, length_drop,
      length_replicate. lia.
Qed.

(** ** Values *)

Lemma byte_val_range (b : byte) : 0 <= byte_val b < 256.
Proof.
  unfold byte_val. pose proof (Byte.to_N_bounded b). lia.
Qed.

Lemma be16_value (hi lo : byte) : be16 hi lo = byte_val hi * 256 + byte_val lo.
Proof.
  unfold be16, to_uint_16. rewrite Z.shiftl_mul_pow2 by lia.
  pose proof (byte_val_range hi). pose proof (byte_val_range lo).
  apply Z.mod_small. change (2 ^ 8) with 256. change (2 ^ 16) with 65536. lia.
Qed.

Lemma cells_bytes_Some (bs : list byte) : cells_bytes (Some <$> bs) = Some bs.
Proof. induction bs as [| b bs IH]; cbn; [| rewrite IH]; reflexivity. Qed.

(** ** The handler once the preconditions have passed *)

Lemma handle_closed_gray (info_ptr : png_inforp) (len : Z) (w : world) :
  passes info_ptr w -> color_type (w_png w) = PNG_COLOR_TYPE_GRAY ->
  handle_closed info_ptr len w
  = if negb (len =? 2) then as_call (reject "invalid" len w)
    else
      match w_pending w with
      | b0 :: b1 :: _ =>
          settle info_ptr [None] (decoded (gray_color b0 b1 (w_png w)) 2 w)
      | _ => Stopped ShortRead w
      end.
Proof.
  intros (H1 & H2 & H3) Hc. unfold handle_closed. cbv zeta.
  rewrite H1, H2, H3, Hc. reflexivity.
Qed.

Lemma handle_closed_rgb (info_ptr : png_inforp) (len : Z) (w : world) :
  passes info_ptr w -> color_type (w_png w) = PNG_COLOR_TYPE_RGB ->
  handle_closed info_ptr len w
  = if negb (len =? 6) then as_call (reject "invalid" len w)
    else
      match w_pending w with
      | b0 :: b1 :: b2 :: b3 :: b4 :: b5 :: _ =>
          settle info_ptr [None]
            (decoded (rgb_color b0 b1 b2 b3 b4 b5 (w_png w)) 6 w)
      | _ => Stopped ShortRead w
      end.
Proof.
  intros (H1 & H2 & H3) Hc. unfold handle_closed. cbv zeta.
  rewrite H1, H2, H3, Hc. reflexivity.
Qed.

Lemma handle_closed_palette (info_ptr : png_inforp) (len : Z) (w : world) :
  passes info_ptr w -> color_type (w_png w) = PNG_COLOR_TYPE_PALETTE ->
  handle_closed info_ptr len w
  = if negb (have_palette w) then as_call (reject "out of place" len w)
    else if palette_length_invalid len (w_png w) then
      as_call (reject "invalid" len w)
    else if (Z.to_nat len <=? List.length (w_pending w))%nat then
      settle info_ptr (Some <$> take (Z.to_nat len) (w_pending w))
        (decoded (with_num_trans (to_uint_16 len) (w_png w)) (Z.to_nat len) w)
    else Stopped ShortRead w.
Proof.
  intros (H1 & H2 & H3) Hc. unfold handle_closed. cbv zeta.
  rewrite H1, H2, H3, Hc. reflexivity.
Qed.

Lemma handle_closed_other (info_ptr : png_inforp) (len : Z) (w : world) :
  passes info_ptr w ->
  color_type (w_png w) <> PNG_COLOR_TYPE_GRAY ->
  color_type (w_png w) <> PNG_COLOR_TYPE_RGB ->
  color_type (w_png w) <> PNG_COLOR_TYPE_PALETTE ->
  handle_closed info_ptr len w
  = as_call (reject "invalid with alpha channel" len w).
Proof.
  intros (H1 & H2 & H3) Hg Hr Hp. unfold handle_closed. cbv zeta.
  rewrite H1, H2, H3.
  apply Z.eqb_neq in Hg, Hr, Hp. rewrite Hg, Hr, Hp. reflexivity.
Qed.

Lemma as_call_reject (msg : string) (len : Z) (w : world) :
  chunk_present len w ->
  as_call (reject msg len w) = Normal tt (rejected msg len w).
Proof.
  unfold chunk_present, reject. intros H. apply Nat.leb_le in H.
  now rewrite H.
Qed.

(** The info record after a commit, seen as the specification sees it. *)
Lemma committed_valid (alphas : block) (w : world) :
  transparency_valid (committed alphas w) = true.
Proof.
  unfold transparency_valid, committed, info_commit. cbn.
  apply negb_true_iff, Z.eqb_neq. intros H.
  apply (f_equal (fun z => Z.testbit z 4)) in H.
  rewrite Z.land_spec, Z.lor_spec in H. cbn in H.
  rewrite orb_true_r in H. discriminate.
Qed.

(** * The claims *)

(** C3: the three preconditions are tested in a fixed order, each ending
    the call before the next is looked at.  Without the header the handler
    raises the chunk error "missing IHDR", whatever the other two flags are,
    and no other chunk error is ever raised by it; with the header, image
    data already begun gives the benign error "out of place", whatever the
    info record says; with neither, an info record whose tRNS is already
    valid gives the benign error "duplicate"; and the decoding is reached
    exactly when none of the three holds, with nothing changed. *)
Theorem preconditions_in_order (info_ptr : png_inforp) (len : Z) (w : world) :
  (have_header w = false ->
     png_handle_tRNS info_ptr len w = Stopped (ChunkError "missing IHDR") w)
  /\ (forall msg w',
        png_handle_tRNS info_ptr len w = Stopped (ChunkError msg) w' ->
        msg = "missing IHDR"%string /\ have_header w = false)
  /\ (have_header w = true -> have_image_data w = true ->
      chunk_present len w ->
      png_handle_tRNS info_ptr len w
      = Normal tt (rejected "out of place" len w))
  /\ (have_header w = true -> have_image_data w = false ->
      transparency_valid w = true -> chunk_present len w ->
      png_handle_tRNS InfoPtr len w = Normal tt (rejected "duplicate" len w))
  /\ (forall w',
        tRNS_preconditions InfoPtr len w = Normal tt w' <->
        (have_header w = true /\ have_image_data w = false /\
         transparency_valid w = false) /\ w' = w).
Proof.
  split; [apply handle_missing_header |].
  split; [apply handle_chunk_error |].
  split; [apply handle_image_data |].
  split; [apply handle_duplicate |].
  intros w'. apply (pre_pass_iff InfoPtr).
Qed.

(** Sessions on which each of the three preconditions triggers, and one on
    which none does. *)
Lemma preconditions_in_order_witness :
  png_handle_tRNS InfoPtr 2 (session 0x04 0 0 [x00; x2a] true)
  = Stopped (ChunkError "missing IHDR") (session 0x04 0 0 [x00; x2a] true)
  /\ png_handle_tRNS InfoPtr 2 (session 0x05 0 0 [x00; x2a] true)
     = Normal tt (rejected "out of place" 2 (session 0x05 0 0 [x00; x2a] true))
  /\ png_handle_tRNS InfoPtr 2
       (set_info (mk_png_info 0x10 1 color0 None)
          (session 0x01 0 0 [x00; x2a] true))
     = Normal tt
         (rejected "duplicate" 2
            (set_info (mk_png_info 0x10 1 color0 None)
               (session 0x01 0 0 [x00; x2a] true)))
  /\ tRNS_preconditions InfoPtr 2 (session 0x01 0 0 [x00; x2a] true)
     = Normal tt (session 0x01 0 0 [x00; x2a] true).
Proof.
  split; [| split; [| split]].
  - apply (preconditions_in_order InfoPtr 2 (session 0x04 0 0 [x00; x2a] true)).
    reflexivity.
  - apply (preconditions_in_order InfoPtr 2 (session 0x05 0 0 [x00; x2a] true));
      [reflexivity | reflexivity | unfold chunk_present; cbn; lia].
  - apply (preconditions_in_order InfoPtr 2
             (set_info (mk_png_info 0x10 1 color0 None)
                (session 0x01 0 0 [x00; x2a] true)));
      [reflexivity | reflexivity | reflexivity | unfold chunk_present; cbn; lia].
  - apply (preconditions_in_order InfoPtr 2 (session 0x01 0 0 [x00; x2a] true)).
    repeat split; reflexivity.
Defined.

Lemma info_transparency_gray (alphas : block) (p : png_struct) (n : nat)
    (w : world) :
  color_type p = PNG_COLOR_TYPE_GRAY ->
  info_transparency (committed alphas (decoded p n w))
  = Some (Gray (gray (trans_color p))).
Proof.
  intros Hc. unfold info_transparency. rewrite committed_valid.
  cbn. rewrite Hc. reflexivity.
Qed.

(** C6: in gray mode a chunk whose length is not 2 is rejected as
    "invalid"; a chunk of the two bytes hi, lo is read as one big-endian
    16-bit value: the gray level of the transparent colour becomes
    hi*256 + lo, and once the checksum is verified the info record holds
    Gray(hi*256 + lo). *)
Theorem gray_payload (info_ptr : png_inforp) (len : Z) (w : world) :
  0 <= len -> passes info_ptr w ->
  color_type (w_png w) = PNG_COLOR_TYPE_GRAY ->
  (len <> 2 -> chunk_present len w ->
   png_handle_tRNS info_ptr len w = Normal tt (rejected "invalid" len w))
  /\ (forall hi lo rest,
        len = 2 -> w_pending w = hi :: lo :: rest ->
        exists w',
          png_handle_tRNS info_ptr len w = Normal tt w'
          /\ gray (trans_color (w_png w')) = byte_val hi * 256 + byte_val lo
          /\ w_pending w' = rest
          /\ (w_crc_ok w = true ->
              num_trans (w_png w') = 1
              /\ (info_ptr = InfoPtr ->
                  info_transparency w'
                  = Some (Gray (byte_val hi * 256 + byte_val lo))))).
Proof.
  intros Hlen Hp Hc.
  rewrite png_handle_tRNS_closed by exact Hlen.
  rewrite handle_closed_gray by assumption.
  split.
  - intros Hn Hpres. apply Z.eqb_neq in Hn. rewrite Hn. cbn [negb].
    now apply as_call_reject.
  - intros hi lo rest -> Hb. rewrite Hb. cbn [Z.eqb Pos.eqb negb].
    unfold settle. change (w_crc_ok (decoded _ _ w)) with (w_crc_ok w).
    destruct (w_crc_ok w); [destruct info_ptr |]; eexists; (split; [reflexivity |]).
    + cbn. rewrite Hb, be16_value.
      split; [reflexivity |]. split; [reflexivity |].
      intros _. split; [reflexivity | discriminate].
    + cbn. rewrite Hb, be16_value.
      split; [reflexivity |]. split; [reflexivity |].
      intros _. split; [reflexivity |]. intros _.
      rewrite info_transparency_gray by exact Hc. cbn.
      now rewrite be16_value.
    + cbn. rewrite Hb, be16_value.
      split; [reflexivity |]. split; [reflexivity |]. discriminate.
Qed.

Lemma gray_payload_witness :
  0 <= 2 /\ passes InfoPtr (session 0x01 0 0 [x00; x2a] true)
  /\ exists w',
      png_handle_tRNS InfoPtr 2 (session 0x01 0 0 [x00; x2a] true)
      = Normal tt w'
      /\ gray (trans_color (w_png w')) = 42
      /\ info_transparency w' = Some (Gray 42).
Proof.
  assert (H0 : 0 <= 2) by lia.
  assert (Hp : passes InfoPtr (session 0x01 0 0 [x00; x2a] true))
    by (repeat split; reflexivity).
  split; [exact H0 |]. split; [exact Hp |].
  destruct (gray_payload InfoPtr 2 (session 0x01 0 0 [x00; x2a] true) H0 Hp
              eq_refl) as [_ H].
  destruct (H x00 x2a [] eq_refl eq_refl) as (w' & E & G & _ & C).
  exists w'. split; [exact E |]. split; [exact G |].
  destruct (C eq_refl) as [_ I]. exact (I eq_refl).
Defined.

Lemma info_transparency_rgb (alphas : block) (p : png_struct) (n : nat)
    (w : world) :
  color_type p = PNG_COLOR_TYPE_RGB ->
  info_transparency (committed alphas (decoded p n w))
  = Some (Rgb (red (trans_color p)) (green (trans_color p))
            (blue (trans_color p))).
Proof.
  intros Hc. unfold info_transparency. rewrite committed_valid.
  cbn. rewrite Hc. reflexivity.
Qed.

(** C7: in RGB mode a chunk whose length is not 6 is rejected as
    "invalid"; a chunk of six bytes is read as three consecutive big-endian
    16-bit values, which become the red, green and blue of the transparent
    colour in this order, and once the checksum is verified the info record
    holds Rgb(r, g, b). *)
Theorem rgb_payload (info_ptr : png_inforp) (len : Z) (w : world) :
  0 <= len -> passes info_ptr w ->
  color_type (w_png w) = PNG_COLOR_TYPE_RGB ->
  (len <> 6 -> chunk_present len w ->
   png_handle_tRNS info_ptr len w = Normal tt (rejected "invalid" len w))
  /\ (forall r1 r0 g1 g0 b1 b0 rest,
        len = 6 -> w_pending w = r1 :: r0 :: g1 :: g0 :: b1 :: b0 :: rest ->
        let r := byte_val r1 * 256 + byte_val r0 in
        let g := byte_val g1 * 256 + byte_val g0 in
        let b := byte_val b1 * 256 + byte_val b0 in
        exists w',
          png_handle_tRNS info_ptr len w = Normal tt w'
          /\ red (trans_color (w_png w')) = r
          /\ green (trans_color (w_png w')) = g
          /\ blue (trans_color (w_png w')) = b
          /\ w_pending w' = rest
          /\ (w_crc_ok w = true ->
              num_trans (w_png w') = 1
              /\ (info_ptr = InfoPtr ->
                  info_transparency w' = Some (Rgb r g b)))).
Proof.
  intros Hlen Hp Hc.
  rewrite png_handle_tRNS_closed by exact Hlen.
  rewrite handle_closed_rgb by assumption.
  split.
  - intros Hn Hpres. apply Z.eqb_neq in Hn. rewrite Hn. cbn [negb].
    now apply as_call_reject.
  - intros r1 r0 g1 g0 b1 b0 rest -> Hb. cbv zeta.
    rewrite Hb. cbn [Z.eqb Pos.eqb negb].
    unfold settle. change (w_crc_ok (decoded _ _ w)) with (w_crc_ok w).
    destruct (w_crc_ok w); [destruct info_ptr |]; eexists;
      (split; [reflexivity |]); cbn; rewrite Hb, !be16_value;
      do 4 (split; [reflexivity |]).
    + intros _. split; [reflexivity | discriminate].
    + intros _. split; [reflexivity |]. intros _.
      rewrite info_transparency_rgb by exact Hc. cbn.
      now rewrite !be16_value.
    + discriminate.
Qed.

Lemma rgb_payload_witness :
  0 <= 6
  /\ passes InfoPtr (session 0x01 2 0 [x00; x01; x00; x02; x00; x03] true)
  /\ exists w',
      png_handle_tRNS InfoPtr 6
        (session 0x01 2 0 [x00; x01; x00; x02; x00; x03] true)
      = Normal tt w'
      /\ info_transparency w' = Some (Rgb 1 2 3).
Proof.
  assert (H0 : 0 <= 6) by lia.
  assert (Hp : passes InfoPtr
                 (session 0x01 2 0 [x00; x01; x00; x02; x00; x03] true))
    by (repeat split; reflexivity).
  split; [exact H0 |]. split; [exact Hp |].
  destruct (rgb_payload InfoPtr 6
              (session 0x01 2 0 [x00; x01; x00; x02; x00; x03] true) H0 Hp
              eq_refl) as [_ H].
  destruct (H x00 x01 x00 x02 x00 x03 [] eq_refl eq_refl)
    as (w' & E & _ & _ & _ & _ & C).
  exists w'. split; [exact E |].
  destruct (C eq_refl) as [_ I]. exact (I eq_refl).
Defined.

(** C8: in the two colour types with an alpha channel every chunk is
    rejected as "invalid with alpha channel", whatever its length and its
    bytes, and the bytes of the chunk are taken off the stream. *)
Theorem alpha_modes_rejected (info_ptr : png_inforp) (len : Z) (w : world) :
  0 <= len -> passes info_ptr w ->
  color_type (w_png w) = PNG_COLOR_TYPE_GRAY_ALPHA
  \/ color_type (w_png w) = PNG_COLOR_TYPE_RGB_ALPHA ->
  chunk_present len w ->
  png_handle_tRNS info_ptr len w
  = Normal tt (rejected "invalid with alpha channel" len w)
  /\ w_pending (rejected "invalid with alpha channel" len w)
     = drop (Z.to_nat len) (w_pending w)
  /\ w_png (rejected "invalid with alpha channel" len w) = w_png w
  /\ w_info (rejected "invalid with alpha channel" len w) = w_info w.
Proof.
  intros Hlen Hp Hc Hpres.
  rewrite png_handle_tRNS_closed by exact Hlen.
  rewrite handle_closed_other; try assumption.
  - split; [now apply as_call_reject |]. repeat split.
  - destruct Hc as [-> | ->]; discriminate.
  - destruct Hc as [-> | ->]; discriminate.
  - destruct Hc as [-> | ->]; discriminate.
Qed.

Lemma alpha_modes_rejected_witness :
  png_handle_tRNS InfoPtr 2 (session 0x01 4 0 [x00; x2a; x07] true)
  = Normal tt
      (rejected "invalid with alpha channel" 2
         (session 0x01 4 0 [x00; x2a; x07] true))
  /\ png_handle_tRNS InfoPtr 0 (session 0x01 6 0 [] false)
     = Normal tt
         (rejected "invalid with alpha channel" 0 (session 0x01 6 0 [] false)).
Proof.
  split.
  - apply (alpha_modes_rejected InfoPtr 2
             (session 0x01 4 0 [x00; x2a; x07] true)).
    + lia.
    + repeat split; reflexivity.
    + left; reflexivity.
    + unfold chunk_present; cbn; lia.
  - apply (alpha_modes_rejected InfoPtr 0 (session 0x01 6 0 [] false)).
    + lia.
    + repeat split; reflexivity.
    + right; reflexivity.
    + unfold chunk_present; cbn; lia.
Defined.

Lemma info_transparency_palette (bs : list byte) (p : png_struct) (n : nat)
    (w : world) :
  color_type p = PNG_COLOR_TYPE_PALETTE ->
  info_transparency (committed (Some <$> bs) (decoded p n w))
  = Some (PaletteAlphas bs).
Proof.
  intros Hc. unfold info_transparency. rewrite committed_valid.
  unfold committed, decoded. wsimpl. cbn [negb color_type
    info_trans_alpha info_commit]. rewrite Hc.
  change (PNG_COLOR_TYPE_PALETTE =? PNG_COLOR_TYPE_GRAY) with false.
  change (PNG_COLOR_TYPE_PALETTE =? PNG_COLOR_TYPE_RGB) with false.
  change (PNG_COLOR_TYPE_PALETTE =? PNG_COLOR_TYPE_PALETTE) with true.
  cbv iota. rewrite lookup_insert_eq, cells_bytes_Some. reflexivity.
Qed.

Lemma palette_length_invalid_iff (len : Z) (p : png_struct) :
  0 <= num_palette p < 2 ^ 32 ->
  palette_length_invalid len p = false
  <-> len <> 0 /\ len <= Z.min (num_palette p) PNG_MAX_PALETTE_LENGTH.
Proof.
  intros Hn. unfold palette_length_invalid, to_uint, PNG_MAX_PALETTE_LENGTH.
  rewrite (Z.mod_small (num_palette p)) by exact Hn.
  change (256 mod 2 ^ 32) with 256.
  rewrite !orb_false_iff, !Z.gtb_ltb, !Z.ltb_ge, Z.eqb_neq. lia.
Qed.

(** C5: in palette mode a chunk that comes before the palette is rejected
    as "out of place"; after the palette, a chunk whose length is not
    between 1 and min(num_palette, 256) is rejected as "invalid", so length
    0 is always rejected and so is every length when the palette is empty;
    otherwise exactly [len] bytes are read, the count of transparent entries
    becomes [len], and once the checksum is verified the info record holds
    these [len] bytes as PaletteAlphas. *)
Theorem palette_payload (info_ptr : png_inforp) (len : Z) (w : world) :
  0 <= len -> passes info_ptr w ->
  color_type (w_png w) = PNG_COLOR_TYPE_PALETTE ->
  0 <= num_palette (w_png w) < 2 ^ 32 ->
  chunk_present len w ->
  (have_palette w = false ->
   png_handle_tRNS info_ptr len w = Normal tt (rejected "out of place" len w))
  /\ (have_palette w = true ->
      ~ 1 <= len <= Z.min (num_palette (w_png w)) PNG_MAX_PALETTE_LENGTH ->
      png_handle_tRNS info_ptr len w = Normal tt (rejected "invalid" len w))
  /\ (have_palette w = true -> len = 0 ->
      png_handle_tRNS info_ptr len w = Normal tt (rejected "invalid" len w))
  /\ (have_palette w = true -> num_palette (w_png w) = 0 ->
      png_handle_tRNS info_ptr len w = Normal tt (rejected "invalid" len w))
  /\ (have_palette w = true ->
      1 <= len <= Z.min (num_palette (w_png w)) PNG_MAX_PALETTE_LENGTH ->
      exists w',
        png_handle_tRNS info_ptr len w = Normal tt w'
        /\ w_pending w' = drop (Z.to_nat len) (w_pending w)
        /\ (w_crc_ok w = true ->
            num_trans (w_png w') = len
            /\ (info_ptr = InfoPtr ->
                info_transparency w'
                = Some (PaletteAlphas (take (Z.to_nat len) (w_pending w)))
                /\ Z.of_nat (List.length (take (Z.to_nat len) (w_pending w)))
                   = len))).
Proof.
  intros Hlen Hp Hc Hn Hpres.
  rewrite png_handle_tRNS_closed by exact Hlen.
  rewrite handle_closed_palette by assumption.
  assert (Hbad : have_palette w = true ->
                 ~ 1 <= len <= Z.min (num_palette (w_png w))
                                 PNG_MAX_PALETTE_LENGTH ->
                 (if negb (have_palette w)
                  then as_call (reject "out of place" len w)
                  else if palette_length_invalid len (w_png w)
                       then as_call (reject "invalid" len w)
                       else if (Z.to_nat len <=? List.length (w_pending w))%nat
                            then settle info_ptr
                                   (Some <$> take (Z.to_nat len) (w_pending w))
                                   (decoded (with_num_trans (to_uint_16 len)
                                               (w_png w)) (Z.to_nat len) w)
                            else Stopped ShortRead w)
                 = Normal tt (rejected "invalid" len w)).
  { intros Hpal Hbad. rewrite Hpal. cbn [negb].
    destruct (palette_length_invalid len (w_png w)) eqn:E.
    - now apply as_call_reject.
    - exfalso. apply Hbad.
      apply (palette_length_invalid_iff len (w_png w) Hn) in E. lia. }
  split; [| split; [| split; [| split]]].
  - intros Hpal. rewrite Hpal. cbn [negb]. now apply as_call_reject.
  - exact Hbad.
  - intros Hpal ->. apply Hbad; [exact Hpal | lia].
  - intros Hpal H0. apply Hbad; [exact Hpal |]. rewrite H0.
    unfold PNG_MAX_PALETTE_LENGTH. lia.
  - intros Hpal Hin. rewrite Hpal. cbn [negb].
    assert (E : palette_length_invalid len (w_png w) = false)
      by (apply (palette_length_invalid_iff len (w_png w) Hn); lia).
    rewrite E. pose proof Hpres as Hpres'. apply Nat.leb_le in Hpres'.
    rewrite Hpres'.
    assert (Hu : to_uint_16 len = len).
    { unfold to_uint_16. apply Z.mod_small.
      unfold PNG_MAX_PALETTE_LENGTH in Hin. lia. }
    unfold settle. change (w_crc_ok (decoded _ _ w)) with (w_crc_ok w).
    destruct (w_crc_ok w); [destruct info_ptr |]; eexists;
      (split; [reflexivity |]); (split; [reflexivity |]).
    + intros _. split; [exact Hu | discriminate].
    + intros _. split; [exact Hu |]. intros _. split.
      * apply info_transparency_palette. exact Hc.
      * rewrite length_take. unfold chunk_present in Hpres. lia.
    + discriminate.
Qed.

Lemma palette_payload_witness :
  exists w',
    png_handle_tRNS InfoPtr 3 (session 0x03 3 4 [x0a; x14; x1e] true)
    = Normal tt w'
    /\ info_transparency w' = Some (PaletteAlphas [x0a; x14; x1e])
    /\ transparency_valid w' = true.
Proof.
  assert (H0 : 0 <= 3) by lia.
  assert (Hp : passes InfoPtr (session 0x03 3 4 [x0a; x14; x1e] true))
    by (repeat split; reflexivity).
  assert (Hn : 0 <= num_palette (w_png (session 0x03 3 4 [x0a; x14; x1e] true))
               < 2 ^ 32) by (cbn; lia).
  assert (Hc : chunk_present 3 (session 0x03 3 4 [x0a; x14; x1e] true))
    by (unfold chunk_present; cbn; lia).
  destruct (palette_payload InfoPtr 3 (session 0x03 3 4 [x0a; x14; x1e] true)
              H0 Hp eq_refl Hn Hc) as (_ & _ & _ & _ & H).
  destruct (H eq_refl) as (w' & E & _ & C).
  { unfold PNG_MAX_PALETTE_LENGTH; cbn; lia. }
  exists w'. split; [exact E |].
  destruct (C eq_refl) as [_ I]. destruct (I eq_refl) as [I1 _].
  split; [exact I1 |].
  unfold info_transparency in I1.
  destruct (transparency_valid w'); [reflexivity | discriminate].
Defined.

(** ** The ways a call can end *)

Lemma reject_cases (msg : string) (len : Z) (w : world) :
  (chunk_present len w
   /\ as_call (reject msg len w) = Normal tt (rejected msg len w))
  \/ (~ chunk_present len w
      /\ as_call (reject msg len w) = Stopped ShortRead w).
Proof.
  unfold chunk_present, reject.
  destruct (Nat.leb_spec (Z.to_nat len) (List.length (w_pending w)));
    [left | right]; (split; [lia | reflexivity]).
Qed.

Lemma ending_reject (info_ptr : png_inforp) (msg : string) (len : Z)
    (w : world) :
  have_header w = true ->
  (msg = "duplicate"%string -> info_ptr = InfoPtr) ->
  ending info_ptr len w (as_call (reject msg len w)).
Proof.
  intros Hh Hd. destruct (reject_cases msg len w) as [[Hp ->] | [Hp ->]].
  - now apply end_rejected.
  - now apply end_short.
Qed.

Lemma handle_closed_ending (info_ptr : png_inforp) (len : Z) (w : world) :
  0 <= len -> ending info_ptr len w (handle_closed info_ptr len w).
Proof.
  intros Hlen. unfold handle_closed. cbv zeta.
  destruct (have_header w) eqn:Hh; cbn [negb];
    [| now apply end_missing_header].
  destruct (have_image_data w) eqn:Hi;
    [apply ending_reject; [exact Hh | discriminate] |].
  destruct (info_not_null info_ptr && transparency_valid w) eqn:Hd.
  { apply ending_reject; [exact Hh |]. intros _.
    destruct info_ptr; [discriminate | reflexivity]. }
  assert (Hp : passes info_ptr w) by (repeat split; assumption).
  destruct (color_type (w_png w) =? PNG_COLOR_TYPE_GRAY).
  { destruct (len =? 2) eqn:E; cbn [negb];
      [| apply ending_reject; [exact Hh | discriminate]].
    apply Z.eqb_eq in E. subst len.
    destruct (w_pending w) as [| b0 [| b1 rest]] eqn:Hb.
    1, 2: apply end_short; [exact Hh |]; unfold chunk_present; rewrite Hb;
      cbn; lia.
    apply (end_settled info_ptr 2 w [None] (gray_color b0 b1 (w_png w)));
      try reflexivity; [exact Hp |].
    unfold chunk_present. rewrite Hb. cbn. lia. }
  destruct (color_type (w_png w) =? PNG_COLOR_TYPE_RGB).
  { destruct (len =? 6) eqn:E; cbn [negb];
      [| apply ending_reject; [exact Hh | discriminate]].
    apply Z.eqb_eq in E. subst len.
    destruct (w_pending w)
      as [| b0 [| b1 [| b2 [| b3 [| b4 [| b5 rest]]]]]] eqn:Hb.
    1, 2, 3, 4, 5, 6: apply end_short; [exact Hh |]; unfold chunk_present;
      rewrite Hb; cbn; lia.
    apply (end_settled info_ptr 6 w [None]
             (rgb_color b0 b1 b2 b3 b4 b5 (w_png w)));
      try reflexivity; [exact Hp |].
    unfold chunk_present. rewrite Hb. cbn. lia. }
  destruct (color_type (w_png w) =? PNG_COLOR_TYPE_PALETTE);
    [| apply ending_reject; [exact Hh | discriminate]].
  destruct (have_palette w); cbn [negb];
    [| apply ending_reject; [exact Hh | discriminate]].
  destruct (palette_length_invalid len (w_png w)) eqn:E;
    [apply ending_reject; [exact Hh | discriminate] |].
  apply palette_length_ok in E. destruct E as (E0 & E1 & E2).
  destruct (Nat.leb_spec (Z.to_nat len) (List.length (w_pending w)))
    as [H | H].
  - apply end_settled; try reflexivity; [exact Hp | exact H |].
    cbn. unfold to_uint_16. rewrite Z.mod_small by lia. lia.
  - apply end_short; [exact Hh |]. unfold chunk_present. lia.
Qed.

Lemma png_handle_tRNS_ending (info_ptr : png_inforp) (len : Z) (w : world) :
  0 <= len -> ending info_ptr len w (png_handle_tRNS info_ptr len w).
Proof.
  intros Hlen. rewrite png_handle_tRNS_closed by exact Hlen.
  now apply handle_closed_ending.
Qed.


(** C1, as stated, fails: a gray chunk of two bytes whose checksum does not
    match is not committed, and yet the transparent colour of the
    [png_struct] has taken the decoded gray level 42. *)
Lemma all_or_nothing_counterexample :
  ~ all_or_nothing InfoPtr 2 (session 0x01 0 0 [x00; x2a] false).
Proof.
  unfold all_or_nothing. vm_compute.
  intros [[H _] | [H _]]; discriminate H.
Qed.

(** C1, amended: a call ends in one of three ways.  Stopped by an error, it
    leaves the whole world as it was.  Rejected with a benign error, it
    leaves the [png_struct], the [png_info] and the store exactly as on
    entry.  Otherwise the payload was decoded: when the checksum does not
    match, the [png_info] and the store are as on entry, [num_trans] is 0
    and the fields of the [png_struct] other than [num_trans] and
    [trans_color] are as on entry; when it matches, the value is committed
    (tRNS is valid in the [png_info] the handler was given). *)
Theorem call_outcomes (info_ptr : png_inforp) (len : Z) (w : world) :
  0 <= len ->
  (exists e, png_handle_tRNS info_ptr len w = Stopped e w)
  \/ (exists msg,
        png_handle_tRNS info_ptr len w = Normal tt (rejected msg len w)
        /\ unchanged w (rejected msg len w))
  \/ (exists w',
        png_handle_tRNS info_ptr len w = Normal tt w'
        /\ w_crc_ok w = false
        /\ w_log w' = w_log w ++ [CrcError]
        /\ w_info w' = w_info w /\ w_heap w' = w_heap w
        /\ num_trans (w_png w') = 0
        /\ mode (w_png w') = mode (w_png w)
        /\ color_type (w_png w') = color_type (w_png w)
        /\ num_palette (w_png w') = num_palette (w_png w)
        /\ trans_alpha (w_png w') = trans_alpha (w_png w))
  \/ (exists w',
        png_handle_tRNS info_ptr len w = Normal tt w'
        /\ w_crc_ok w = true
        /\ w_log w' = w_log w
        /\ trns_seen w' = true
        /\ match info_ptr with
           | InfoPtr => transparency_valid w' = true
           | InfoNull => w_info w' = w_info w /\ w_heap w' = w_heap w
           end).
Proof.
  intros Hlen.
  destruct (png_handle_tRNS_ending info_ptr len w Hlen)
    as [Hh | Hh Hs | msg Hh Hp Hd | alphas p' Hp Hc Hm Hct Hn Ha Hpos].
  - left. eexists. reflexivity.
  - left. eexists. reflexivity.
  - right. left. exists msg. split; [reflexivity |]. repeat split.
  - right. right. unfold settle.
    change (w_crc_ok (decoded p' (Z.to_nat len) w)) with (w_crc_ok w).
    destruct (w_crc_ok w) eqn:Hcrc; [right | left].
    + assert (Hseen : negb (num_trans p' =? 0) = true)
        by (apply negb_true_iff, Z.eqb_neq; lia).
      destruct info_ptr; eexists; (split; [reflexivity |]);
        (split; [reflexivity |]); (split; [reflexivity |]);
        (split; [exact Hseen |]).
      * split; reflexivity.
      * apply committed_valid.
    + eexists. split; [reflexivity |].
      repeat (split; [first [reflexivity | assumption] |]). assumption.
Qed.

Lemma call_outcomes_witness :
  0 <= 2
  /\ ((exists e,
         png_handle_tRNS InfoPtr 2 (session 0x01 0 0 [x00; x2a] false)
         = Stopped e (session 0x01 0 0 [x00; x2a] false))
      \/ (exists msg,
            png_handle_tRNS InfoPtr 2 (session 0x01 0 0 [x00; x2a] false)
            = Normal tt
                (rejected msg 2 (session 0x01 0 0 [x00; x2a] false))
            /\ unchanged (session 0x01 0 0 [x00; x2a] false)
                 (rejected msg 2 (session 0x01 0 0 [x00; x2a] false)))
      \/ (exists w',
            png_handle_tRNS InfoPtr 2 (session 0x01 0 0 [x00; x2a] false)
            = Normal tt w'
            /\ w_crc_ok (session 0x01 0 0 [x00; x2a] false) = false
            /\ w_log w' = w_log (session 0x01 0 0 [x00; x2a] false) ++ [CrcError]
            /\ w_info w' = w_info (session 0x01 0 0 [x00; x2a] false)
            /\ w_heap w' = w_heap (session 0x01 0 0 [x00; x2a] false)
            /\ num_trans (w_png w') = 0
            /\ mode (w_png w') = mode (w_png (session 0x01 0 0 [x00; x2a] false))
            /\ color_type (w_png w')
               = color_type (w_png (session 0x01 0 0 [x00; x2a] false))
            /\ num_palette (w_png w')
               = num_palette (w_png (session 0x01 0 0 [x00; x2a] false))
            /\ trans_alpha (w_png w')
               = trans_alpha (w_png (session 0x01 0 0 [x00; x2a] false)))
      \/ (exists w',
            png_handle_tRNS InfoPtr 2 (session 0x01 0 0 [x00; x2a] false)
            = Normal tt w'
            /\ w_crc_ok (session 0x01 0 0 [x00; x2a] false) = true
            /\ w_log w' = w_log (session 0x01 0 0 [x00; x2a] false)
            /\ trns_seen w' = true
            /\ transparency_valid w' = true)).
Proof.
  split; [lia |].
  apply (call_outcomes InfoPtr 2 (session 0x01 0 0 [x00; x2a] false)). lia.
Defined.

(** C4, as stated, fails: without the header the handler raises its chunk
    error at once, and the two bytes of the chunk are still in the
    stream. *)
Lemma drained_on_every_error_counterexample : ~ drained_on_every_error.
Proof.
  intros H.
  specialize (H InfoPtr 2 (session 0x00 0 0 [x00; x2a] true)).
  assert (H0 : 0 <= 2) by lia.
  assert (Hp : chunk_present 2 (session 0x00 0 0 [x00; x2a] true))
    by (unfold chunk_present; cbn; lia).
  specialize (H H0 Hp).
  rewrite handle_missing_header in H by reflexivity.
  specialize (H I). discriminate H.
Qed.

Lemma settle_pending (info_ptr : png_inforp) (alphas : block)
    (p' : png_struct) (n : nat) (w : world) :
  exists w',
    settle info_ptr alphas (decoded p' n w) = Normal tt w'
    /\ w_pending w' = drop n (w_pending w).
Proof.
  unfold settle. change (w_crc_ok (decoded p' n w)) with (w_crc_ok w).
  destruct (w_crc_ok w); [destruct info_ptr |]; eexists; split; reflexivity.
Qed.

(** C4, amended: with the header seen, every call on a chunk that is whole
    in the stream (the rejections, the checksum mismatch and the commit
    alike) returns with exactly the declared length taken off the stream;
    without the header the handler raises "missing IHDR" and has taken
    nothing. *)
Theorem chunk_drained (info_ptr : png_inforp) (len : Z) (w : world) :
  0 <= len -> chunk_present len w ->
  (have_header w = true ->
   exists w',
     png_handle_tRNS info_ptr len w = Normal tt w'
     /\ w_pending w' = drop (Z.to_nat len) (w_pending w))
  /\ (have_header w = false ->
      png_handle_tRNS info_ptr len w
      = Stopped (ChunkError "missing IHDR") w).
Proof.
  intros Hlen Hpres. split; [| apply handle_missing_header].
  intros Hh.
  destruct (png_handle_tRNS_ending info_ptr len w Hlen)
    as [Hh' | Hh' Hs | msg Hh' Hp Hd | alphas p' Hp Hc Hm Hct Hn Ha Hpos].
  - congruence.
  - contradiction.
  - eexists. split; reflexivity.
  - apply settle_pending.
Qed.

Lemma chunk_drained_witness :
  (exists w',
     png_handle_tRNS InfoPtr 3 (session 0x01 0 0 [x00; x2a; x07; x09] true)
     = Normal tt w'
     /\ w_pending w' = [x09])
  /\ png_handle_tRNS InfoPtr 3 (session 0x00 0 0 [x00; x2a; x07; x09] true)
     = Stopped (ChunkError "missing IHDR")
         (session 0x00 0 0 [x00; x2a; x07; x09] true).
Proof.
  split.
  - apply (chunk_drained InfoPtr 3 (session 0x01 0 0 [x00; x2a; x07; x09] true));
      [lia | unfold chunk_present; cbn; lia | reflexivity].
  - apply (chunk_drained InfoPtr 3 (session 0x00 0 0 [x00; x2a; x07; x09] true));
      [lia | unfold chunk_present; cbn; lia | reflexivity].
Defined.

(** ** After the decoding *)

Lemma reject_not_normal (msg : string) (len : Z) (w w' : world) :
  reject msg len w <> Normal tt w'.
Proof. unfold reject. destruct (_ <=? _)%nat; discriminate. Qed.

(** What a decoding that falls through to the checksum has left: a new
    [png_struct], the stream shortened, and the cells of [readbuf]. *)
Lemma decode_normal (len : Z) (w w1 : world) :
  0 <= len ->
  tRNS_decode (readbuf_loc w, 0%nat) len (enter w) = Normal tt w1 ->
  exists cells p' n,
    w1 = set_heap (<[readbuf_loc w := cells]> (w_heap w)) (decoded p' n w)
    /\ (Z.to_nat (num_trans p') <= List.length cells)%nat
    /\ 0 < num_trans p' < 2 ^ 16.
Proof.
  intros Hlen. rewrite tRNS_decode_closed by apply enter_lookup.
  change (w_png (enter w)) with (w_png w).
  destruct (color_type (w_png w) =? PNG_COLOR_TYPE_GRAY).
  { rewrite tRNS_gray_closed.
    destruct (negb (len =? 2)); [intros H; now apply reject_not_normal in H |].
    change (w_pending (enter w)) with (w_pending w).
    destruct (w_pending w) as [| b0 [| b1 rest]]; try discriminate.
    intros H; inversion H.
    exists (replicate 256 None), (gray_color b0 b1 (w_png w)), 2%nat.
    split; [reflexivity |]. split; [| cbn; lia].
    rewrite length_replicate. apply Nat.leb_le. reflexivity. }
  destruct (color_type (w_png w) =? PNG_COLOR_TYPE_RGB).
  { rewrite tRNS_rgb_closed.
    destruct (negb (len =? 6)); [intros H; now apply reject_not_normal in H |].
    change (w_pending (enter w)) with (w_pending w).
    destruct (w_pending w) as [| b0 [| b1 [| b2 [| b3 [| b4 [| b5 rest]]]]]];
      try discriminate.
    intros H; inversion H.
    exists (replicate 256 None), (rgb_color b0 b1 b2 b3 b4 b5 (w_png w)),
      6%nat.
    split; [reflexivity |]. split; [| cbn; lia].
    rewrite length_replicate. apply Nat.leb_le. reflexivity. }
  destruct (color_type (w_png w) =? PNG_COLOR_TYPE_PALETTE);
    [| intros H; now apply reject_not_normal in H].
  rewrite tRNS_palette_closed by apply enter_lookup.
  destruct (negb _); [intros H; now apply reject_not_normal in H |].
  change (w_png (enter w)) with (w_png w).
  change (w_pending (enter w)) with (w_pending w).
  destruct (palette_length_invalid len (w_png w)) eqn:E;
    [intros H; now apply reject_not_normal in H |].
  apply palette_length_ok in E. destruct E as (E0 & E1 & E2).
  destruct (Nat.leb_spec (Z.to_nat len) (List.length (w_pending w)))
    as [Hp | Hp]; [| discriminate].
  intros H; inversion H.
  exists ((Some <$> take (Z.to_nat len) (w_pending w))
            ++ drop (Z.to_nat len) (replicate 256 None)),
    (with_num_trans (to_uint_16 len) (w_png w)), (Z.to_nat len).
  assert (Hu : to_uint_16 len = len)
    by (unfold to_uint_16; apply Z.mod_small; lia).
  split; [| split].
  - unfold enter, decoded. wsimpl. now rewrite insert_insert_eq.
  - cbn [num_trans with_num_trans]. rewrite Hu.
    rewrite length_app, length_fmap, length_take, length_drop,
      length_replicate. lia.
  - cbn [num_trans with_num_trans]. rewrite Hu. lia.
Qed.

Lemma handle_after_decode (info_ptr : png_inforp) (len : Z) (w w1 : world) :
  passes info_ptr w ->
  tRNS_decode (readbuf_loc w, 0%nat) len (enter w) = Normal tt w1 ->
  png_handle_tRNS info_ptr len w
  = as_call (map_world (free_block (readbuf_loc w))
               (tRNS_commit info_ptr (readbuf_loc w, 0%nat) w1)).
Proof.
  intros (H1 & H2 & H3) Hd. rewrite png_handle_tRNS_call.
  rewrite (bind_normal _ _ (enter w) tt (enter w))
    by (apply pre_pass; assumption).
  now rewrite (bind_normal _ _ (enter w) tt w1) by exact Hd.
Qed.

(** C2: when the payload has been decoded, leaving the world [w1] before
    the checksum is looked at, the commit depends on the checksum alone.
    With a mismatch the call returns with the info record as it was (tRNS
    still not valid) and the cursor's report of the mismatch as the only
    event.  With a match it returns without any event, tRNS is valid, the
    [png_struct] records the chunk, and the info record holds a copy of the
    decoded value: the count, the colour, and in a block of its own the
    first [num_trans] cells of the buffer. *)
Theorem commit_gated_on_checksum (len : Z) (w w1 : world) :
  0 <= len -> passes InfoPtr w ->
  tRNS_decode (readbuf_loc w, 0%nat) len (enter w) = Normal tt w1 ->
  exists w',
    png_handle_tRNS InfoPtr len w = Normal tt w'
    /\ (w_crc_ok w = false ->
        w_info w' = w_info w /\ transparency_valid w' = false
        /\ w_log w' = w_log w ++ [CrcError])
    /\ (w_crc_ok w = true ->
        transparency_valid w' = true /\ trns_seen w' = true
        /\ w_log w' = w_log w
        /\ info_num_trans (w_info w') = num_trans (w_png w1)
        /\ info_trans_color (w_info w') = trans_color (w_png w1)
        /\ exists a cells,
             info_trans_alpha (w_info w') = Some a
             /\ w_heap w1 !! readbuf_loc w = Some cells
             /\ w_heap w' !! a
                = Some (take (Z.to_nat (num_trans (w_png w1))) cells)).
Proof.
  intros Hlen Hp Hd.
  rewrite (handle_after_decode InfoPtr len w w1 Hp Hd).
  destruct (decode_normal len w w1 Hlen Hd) as (cells & p' & n & -> & Hn & Hr).
  rewrite settle_closed by exact Hn.
  unfold settle. change (w_crc_ok (decoded p' n w)) with (w_crc_ok w).
  destruct Hp as (_ & _ & Hv). cbn [info_not_null andb] in Hv.
  destruct (w_crc_ok w); eexists; (split; [reflexivity |]); split;
    try discriminate; intros _.
  - split; [apply committed_valid |].
    split; [unfold trns_seen; cbn; apply negb_true_iff, Z.eqb_neq; lia |].
    split; [reflexivity |].
    split; [cbn; unfold to_uint_16; apply Z.mod_small; lia |].
    split; [reflexivity |].
    eexists. exists cells. split; [reflexivity |].
    split; [apply lookup_insert_eq |]. apply lookup_insert_eq.
  - split; [reflexivity |]. split; [exact Hv | reflexivity].
Qed.

Lemma commit_gated_on_checksum_witness :
  exists w',
    png_handle_tRNS InfoPtr 2 (session 0x01 0 0 [x00; x2a] true) = Normal tt w'
    /\ transparency_valid w' = true
    /\ info_trans_color (w_info w') = mk_color_16 0 0 0 42.
Proof.
  assert (H0 : 0 <= 2) by lia.
  assert (Hp : passes InfoPtr (session 0x01 0 0 [x00; x2a] true))
    by (repeat split; reflexivity).
  destruct (commit_gated_on_checksum 2 (session 0x01 0 0 [x00; x2a] true)
              (final (tRNS_decode
                        (readbuf_loc (session 0x01 0 0 [x00; x2a] true), 0%nat)
                        2 (enter (session 0x01 0 0 [x00; x2a] true))))
              H0 Hp)
    as (w' & E & _ & C).
  { vm_compute. reflexivity. }
  exists w'. split; [exact E |].
  destruct (C eq_refl) as (V & _ & _ & _ & T & _).
  split; [exact V |]. rewrite T. vm_compute. reflexivity.
Defined.

(** ** Ownership of the alpha bytes *)






(** ** A null info pointer *)

Lemma handle_closed_null_info (len : Z) (i : png_info) (w : world) :
  handle_closed InfoNull len (set_info i w)
  = map_world (set_info i) (handle_closed InfoNull len w).
Proof.
  destruct w as [p i0 h pend crc lg].
  unfold handle_closed, have_header, have_image_data, have_palette, settle,
    reject, decoded, rejected, finished, crc_events, discarded.
  cbv zeta. cbn [info_not_null andb]. wsimpl.
  repeat match goal with
         | |- context [if ?b then _ else _] => destruct b
         | |- context [match ?l with [] => _ | _ :: _ => _ end] => destruct l
         end;
    reflexivity.
Qed.

Lemma no_duplicate_event (w : world) (es : list event) :
  es = [] \/ es = [CrcError]
  \/ (exists msg, msg <> "duplicate"%string
                  /\ es = crc_events w ++ [BenignError msg]) ->
  es <> crc_events w ++ [BenignError "duplicate"].
Proof.
  unfold crc_events.
  intros [-> | [-> | (msg & Hm & ->)]]; destruct (w_crc_ok w); cbn;
    try discriminate.
  - intros H; inversion H. contradiction.
  - intros H; inversion H. contradiction.
Qed.

(** C10: with a null info pointer the duplicate test is never made.  Once
    the header is seen and no image data has begun, the preconditions let
    the call through whatever the info record of the session says; the call
    never reports "duplicate"; what it does is the same whatever the info
    record holds, and the info record stays as it is.  The payload is
    decoded into the [png_struct] even when tRNS is already valid: in gray
    mode a chunk of two bytes sets the gray sample and the count; in RGB
    mode a chunk of six bytes sets the three samples and the count; in
    palette mode a chunk of a legal length is read from the stream and its
    length becomes the count; and in each mode a failed checksum sets the
    count back to zero. *)
Theorem null_info_skips_duplicate (len : Z) (w : world) :
  0 <= len -> have_header w = true -> have_image_data w = false ->
  tRNS_preconditions InfoNull len w = Normal tt w
  /\ (forall w',
        png_handle_tRNS InfoNull len w = Normal tt w' ->
        w_log w' <> w_log w ++ crc_events w ++ [BenignError "duplicate"])
  /\ (forall i,
        png_handle_tRNS InfoNull len (set_info i w)
        = map_world (set_info i) (png_handle_tRNS InfoNull len w))
  /\ w_info (final (png_handle_tRNS InfoNull len w)) = w_info w
  /\ (forall hi lo rest,
        color_type (w_png w) = PNG_COLOR_TYPE_GRAY -> len = 2 ->
        w_pending w = hi :: lo :: rest ->
        exists w',
          png_handle_tRNS InfoNull len w = Normal tt w'
          /\ gray (trans_color (w_png w')) = byte_val hi * 256 + byte_val lo
          /\ num_trans (w_png w') = (if w_crc_ok w then 1 else 0))
  /\ (forall r1 r0 g1 g0 b1 b0 rest,
        color_type (w_png w) = PNG_COLOR_TYPE_RGB -> len = 6 ->
        w_pending w = r1 :: r0 :: g1 :: g0 :: b1 :: b0 :: rest ->
        exists w',
          png_handle_tRNS InfoNull len w = Normal tt w'
          /\ red (trans_color (w_png w')) = byte_val r1 * 256 + byte_val r0
          /\ green (trans_color (w_png w')) = byte_val g1 * 256 + byte_val g0
          /\ blue (trans_color (w_png w')) = byte_val b1 * 256 + byte_val b0
          /\ num_trans (w_png w') = (if w_crc_ok w then 1 else 0)
          /\ w_pending w' = rest)
  /\ (color_type (w_png w) = PNG_COLOR_TYPE_PALETTE ->
      have_palette w = true ->
      0 <= num_palette (w_png w) < 2 ^ 32 ->
      1 <= len <= Z.min (num_palette (w_png w)) PNG_MAX_PALETTE_LENGTH ->
      chunk_present len w ->
      exists w',
        png_handle_tRNS InfoNull len w = Normal tt w'
        /\ num_trans (w_png w') = (if w_crc_ok w then len else 0)
        /\ trans_color (w_png w') = trans_color (w_png w)
        /\ w_pending w' = drop (Z.to_nat len) (w_pending w))
  /\ (color_type (w_png w) <> PNG_COLOR_TYPE_GRAY ->
      color_type (w_png w) <> PNG_COLOR_TYPE_RGB ->
      color_type (w_png w) <> PNG_COLOR_TYPE_PALETTE ->
      chunk_present len w ->
      png_handle_tRNS InfoNull len w
      = Normal tt (rejected "invalid with alpha channel" len w)).
Proof.
  intros Hlen Hh Hi.
  assert (Hp : passes InfoNull w) by (repeat split; assumption).
  split; [now apply pre_pass |].
  split; [| split; [| split; [| split; [| split; [| split]]]]].
  - intros w' E.
    pose proof (png_handle_tRNS_ending InfoNull len w Hlen) as En.
    rewrite E in En. intros Hlog.
    apply (no_duplicate_event w (drop (List.length (w_log w)) (w_log w'))).
    + inversion En as [| | msg Hh' Hpres Hd Hr | alphas p' Hp' Hc Hm Hct Hn Ha Hpos Hr].
      * right. right. exists msg. split; [intros ->; now specialize (Hd eq_refl) |].
        unfold rejected, finished. wsimpl.
        now rewrite <- app_assoc, drop_app_length.
      * revert Hr. unfold settle.
        change (w_crc_ok (decoded p' (Z.to_nat len) w)) with (w_crc_ok w).
        destruct (w_crc_ok w); intros Hr; inversion Hr.
        -- left. cbn. now rewrite drop_all.
        -- right. left. cbn. now rewrite drop_app_length.
    + rewrite Hlog. now rewrite drop_app_length.
  - intros i. rewrite !png_handle_tRNS_closed by exact Hlen.
    apply handle_closed_null_info.
  - destruct (png_handle_tRNS_ending InfoNull len w Hlen)
      as [Hh' | Hh' Hs | msg Hh' Hpres Hd | alphas p' Hp' Hc Hm Hct Hn Ha Hpos];
      try reflexivity.
    unfold settle. now destruct (w_crc_ok _).
  - intros hi lo rest Hc -> Hb.
    rewrite png_handle_tRNS_closed by exact Hlen.
    rewrite handle_closed_gray by assumption.
    rewrite Hb. cbn [Z.eqb Pos.eqb negb].
    unfold settle. change (w_crc_ok (decoded _ _ w)) with (w_crc_ok w).
    destruct (w_crc_ok w); eexists; (split; [reflexivity |]); cbn;
      rewrite be16_value; split; reflexivity.
  - intros r1 r0 g1 g0 b1 b0 rest Hc -> Hb.
    rewrite png_handle_tRNS_closed by exact Hlen.
    rewrite handle_closed_rgb by assumption.
    rewrite Hb. cbn [Z.eqb Pos.eqb negb].
    unfold settle. change (w_crc_ok (decoded _ _ w)) with (w_crc_ok w).
    destruct (w_crc_ok w); eexists; (split; [reflexivity |]); cbn;
      rewrite ?Hb, !be16_value; repeat split; reflexivity.
  - intros Hc Hpal Hn Hin Hpres.
    rewrite png_handle_tRNS_closed by exact Hlen.
    rewrite handle_closed_palette by assumption.
    rewrite Hpal. cbn [negb].
    assert (E : palette_length_invalid len (w_png w) = false)
      by (apply (palette_length_invalid_iff len (w_png w) Hn); lia).
    rewrite E. pose proof Hpres as Hpres'. apply Nat.leb_le in Hpres'.
    rewrite Hpres'.
    assert (Hu : to_uint_16 len = len).
    { unfold to_uint_16. apply Z.mod_small.
      unfold PNG_MAX_PALETTE_LENGTH in Hin. lia. }
    unfold settle. change (w_crc_ok (decoded _ _ w)) with (w_crc_ok w).
    destruct (w_crc_ok w); eexists; (split; [reflexivity |]);
      (split; [| split; reflexivity]).
    + exact Hu.
    + reflexivity.
  - intros Hg Hr Hpl Hpres.
    rewrite png_handle_tRNS_closed by exact Hlen.
    rewrite handle_closed_other by assumption.
    now apply as_call_reject.
Qed.

(** Two chunks in a row with a null info pointer, in each of the three
    modes: the second is decoded like the first. *)
Lemma null_info_skips_duplicate_witness :
  (exists w1 w2,
     png_handle_tRNS InfoNull 2 (session 0x01 0 0 [x00; x2a; x00; x07] true)
     = Normal tt w1
     /\ gray (trans_color (w_png w1)) = 42 /\ num_trans (w_png w1) = 1
     /\ png_handle_tRNS InfoNull 2 w1 = Normal tt w2
     /\ gray (trans_color (w_png w2)) = 7 /\ num_trans (w_png w2) = 1)
  /\ (exists w1,
        png_handle_tRNS InfoNull 6
          (session 0x01 2 0 [x00; x01; x00; x02; x01; x00] true)
        = Normal tt w1
        /\ red (trans_color (w_png w1)) = 1
        /\ green (trans_color (w_png w1)) = 2
        /\ blue (trans_color (w_png w1)) = 256
        /\ num_trans (w_png w1) = 1)
  /\ (exists w1,
        png_handle_tRNS InfoNull 3
          (session 0x03 3 4 [x0a; x14; x1e; xff] true)
        = Normal tt w1
        /\ num_trans (w_png w1) = 3 /\ w_pending w1 = [xff]).
Proof.
  assert (H0 : 0 <= 2) by lia.
  split; [| split].
  - destruct (null_info_skips_duplicate 2
                (session 0x01 0 0 [x00; x2a; x00; x07] true) H0 eq_refl eq_refl)
      as (_ & _ & _ & _ & H & _).
    destruct (H x00 x2a [x00; x07] eq_refl eq_refl eq_refl)
      as (w1 & E1 & G1 & N1).
    exists w1.
    assert (Ew : w1 = final (png_handle_tRNS InfoNull 2
                               (session 0x01 0 0 [x00; x2a; x00; x07] true)))
      by (rewrite E1; reflexivity).
    destruct (null_info_skips_duplicate 2 w1 H0) as (_ & _ & _ & _ & H' & _);
      [rewrite Ew; vm_compute; reflexivity
      | rewrite Ew; vm_compute; reflexivity |].
    destruct (H' x00 x07 [] ) as (w2 & E2 & G2 & N2);
      [rewrite Ew; vm_compute; reflexivity | reflexivity
      | rewrite Ew; vm_compute; reflexivity |].
    exists w2.
    assert (C : w_crc_ok w1 = true) by (rewrite Ew; vm_compute; reflexivity).
    rewrite C in N2.
    repeat split; assumption.
  - assert (H6 : 0 <= 6) by lia.
    destruct (null_info_skips_duplicate 6
                (session 0x01 2 0 [x00; x01; x00; x02; x01; x00] true)
                H6 eq_refl eq_refl)
      as (_ & _ & _ & _ & _ & H & _).
    destruct (H x00 x01 x00 x02 x01 x00 [] eq_refl eq_refl eq_refl)
      as (w1 & E1 & R & G & B & N & _).
    exists w1. repeat split; assumption.
  - assert (H3 : 0 <= 3) by lia.
    destruct (null_info_skips_duplicate 3
                (session 0x03 3 4 [x0a; x14; x1e; xff] true)
                H3 eq_refl eq_refl)
      as (_ & _ & _ & _ & _ & _ & H & _).
    destruct H as (w1 & E1 & N & _ & P);
      [reflexivity | reflexivity | cbn; lia
      | unfold PNG_MAX_PALETTE_LENGTH; cbn; lia
      | unfold chunk_present; cbn; lia |].
    exists w1. repeat split; assumption.
Defined.

(** * Further properties of the handler *)

(** X1: whatever the length and the bytes of the chunk, no access of the
    handler leaves an array: the two tests of the length against the
    palette bound keep the palette bytes inside [readbuf], and the gray and
    RGB reads fill their arrays exactly. *)
Theorem tRNS_arrays_in_bounds (info_ptr : png_inforp) (len : Z)
    (w w' : world) :
  0 <= len -> png_handle_tRNS info_ptr len w <> Stopped MemFault w'.
Proof.
  intros Hlen E.
  pose proof (png_handle_tRNS_ending info_ptr len w Hlen) as En.
  rewrite E in En.
  inversion En as [| | | alphas p' Hp Hc Hm Hct Hn Ha Hpos Hr].
  revert Hr. unfold settle.
  destruct (w_crc_ok _); [destruct info_ptr |]; discriminate.
Qed.

Lemma tRNS_arrays_in_bounds_witness :
  0 <= 256
  /\ forall w',
       png_handle_tRNS InfoPtr 256
         (session 0x03 3 256 (replicate 256 xff) true)
       <> Stopped MemFault w'.
Proof.
  split; [lia |]. intros w'.
  apply (tRNS_arrays_in_bounds InfoPtr 256
           (session 0x03 3 256 (replicate 256 xff) true) w').
  lia.
Defined.

Lemma handler_frame (info_ptr : png_inforp) (len : Z) (w : world) :
  0 <= len ->
  let w' := final (png_handle_tRNS info_ptr len w) in
  mode (w_png w') = mode (w_png w)
  /\ color_type (w_png w') = color_type (w_png w)
  /\ num_palette (w_png w') = num_palette (w_png w)
  /\ w_crc_ok w' = w_crc_ok w
  /\ (w_pending w' = w_pending w
      \/ w_pending w' = drop (Z.to_nat len) (w_pending w))
  /\ exists es, w_log w' = w_log w ++ es.
Proof.
  intros Hlen. cbv zeta.
  destruct (png_handle_tRNS_ending info_ptr len w Hlen)
    as [Hh | Hh Hs | msg Hh Hp Hd | alphas p' Hp Hc Hm Hct Hn Ha Hpos].
  - cbn [final]. repeat (split; [reflexivity |]).
    split; [now left |]. exists []. now rewrite app_nil_r.
  - cbn [final]. repeat (split; [reflexivity |]).
    split; [now left |]. exists []. now rewrite app_nil_r.
  - cbn [final]. repeat (split; [reflexivity |]).
    split; [now right |]. exists (crc_events w ++ [BenignError msg]).
    unfold rejected, finished. wsimpl. now rewrite app_assoc.
  - unfold settle.
    change (w_crc_ok (decoded p' (Z.to_nat len) w)) with (w_crc_ok w).
    destruct (w_crc_ok w) eqn:Hcrc; [destruct info_ptr |]; cbn [final];
      (split; [exact Hm |]); (split; [exact Hct |]); (split; [exact Hn |]);
      (split; [exact Hcrc |]); (split; [now right |]).
    + exists []. now rewrite app_nil_r.
    + exists []. now rewrite app_nil_r.
    + exists [CrcError]. reflexivity.
Qed.

(** X2: the handler writes neither the mode flags, nor the colour type, nor
    the palette size, nor the verdict of the checksum; it only adds to the
    log; and it takes either nothing or exactly the declared length off the
    stream, never more. *)
Theorem tRNS_frame (info_ptr : png_inforp) (len : Z) (w : world) :
  0 <= len ->
  let w' := final (png_handle_tRNS info_ptr len w) in
  mode (w_png w') = mode (w_png w)
  /\ color_type (w_png w') = color_type (w_png w)
  /\ num_palette (w_png w') = num_palette (w_png w)
  /\ w_crc_ok w' = w_crc_ok w
  /\ (w_pending w' = w_pending w
      \/ w_pending w' = drop (Z.to_nat len) (w_pending w))
  /\ exists es, w_log w' = w_log w ++ es.
Proof. exact (handler_frame info_ptr len w). Qed.

Lemma tRNS_frame_witness :
  w_pending (final (png_handle_tRNS InfoPtr 2
                      (session 0x01 0 0 [x00; x2a; x07] true))) = [x07]
  \/ w_pending (final (png_handle_tRNS InfoPtr 2
                         (session 0x01 0 0 [x00; x2a; x07] true)))
     = [x00; x2a; x07].
Proof.
  assert (H0 : 0 <= 2) by lia.
  destruct (tRNS_frame InfoPtr 2 (session 0x01 0 0 [x00; x2a; x07] true) H0)
    as (_ & _ & _ & _ & [H | H] & _).
  - right. exact H.
  - left. exact H.
Defined.

(** X3: what makes a later chunk a duplicate is the commit and nothing
    else.  After a call that was let through by the preconditions and
    returned, a further chunk is rejected as "duplicate", with nothing
    decoded, when the first call has marked tRNS valid; when it has not
    (the chunk was rejected, or its checksum did not match), the
    preconditions let the further chunk through again. *)
Theorem tRNS_second_chunk (len len2 : Z) (w w' : world) :
  0 <= len -> passes InfoPtr w ->
  png_handle_tRNS InfoPtr len w = Normal tt w' ->
  (transparency_valid w' = true ->
   chunk_present len2 w' ->
   png_handle_tRNS InfoPtr len2 w' = Normal tt (rejected "duplicate" len2 w'))
  /\ (transparency_valid w' = false -> passes InfoPtr w')
  /\ (transparency_valid w' = true <-> w_crc_ok w = true /\ w_log w' = w_log w).
Proof.
  intros Hlen Hp E.
  pose proof (handler_frame InfoPtr len w Hlen) as F. cbv zeta in F.
  rewrite E in F. cbn [final] in F. destruct F as (Fm & _ & _ & _ & _ & _).
  destruct Hp as (H1 & H2 & H3). cbn [info_not_null andb] in H3.
  assert (Hh : have_header w' = true)
    by (unfold have_header in *; now rewrite Fm).
  assert (Hi : have_image_data w' = false)
    by (unfold have_image_data in *; now rewrite Fm).
  split; [| split].
  - intros Hv Hpres. now apply handle_duplicate.
  - intros Hv. repeat split; assumption.
  - pose proof (png_handle_tRNS_ending InfoPtr len w Hlen) as En.
    rewrite E in En.
    inversion En as [| | msg Hh' Hpres Hd Hr
                     | alphas p' Hp' Hc Hm Hct Hn Ha Hpos Hr].
    + change (transparency_valid (rejected msg len w))
        with (transparency_valid w). rewrite H3.
      split; [discriminate |]. intros [_ Hl]. exfalso. revert Hl.
      unfold rejected, finished. wsimpl. rewrite <- app_assoc.
      rewrite <- (app_nil_r (w_log w)) at 2. intros Hl.
      apply app_inv_head in Hl. destruct (crc_events w); discriminate.
    + revert Hr. unfold settle.
      change (w_crc_ok (decoded p' (Z.to_nat len) w)) with (w_crc_ok w).
      destruct (w_crc_ok w) eqn:Hcrc; intros Hr; inversion Hr.
      * rewrite committed_valid. split; [| reflexivity].
        intros _. split; reflexivity.
      * change (transparency_valid (discarded (decoded p' (Z.to_nat len) w)))
          with (transparency_valid w). rewrite H3.
        split; [discriminate |]. intros [Hf _]. discriminate.
Qed.

(** A gray chunk is committed; the chunk that follows it is a duplicate. *)
Lemma tRNS_second_chunk_witness :
  exists w',
    png_handle_tRNS InfoPtr 2 (session 0x01 0 0 [x00; x2a; x00; x07] true)
    = Normal tt w'
    /\ png_handle_tRNS InfoPtr 2 w' = Normal tt (rejected "duplicate" 2 w').
Proof.
  exists (final (png_handle_tRNS InfoPtr 2
                   (session 0x01 0 0 [x00; x2a; x00; x07] true))).
  assert (E : png_handle_tRNS InfoPtr 2
                (session 0x01 0 0 [x00; x2a; x00; x07] true)
              = Normal tt
                  (final (png_handle_tRNS InfoPtr 2
                            (session 0x01 0 0 [x00; x2a; x00; x07] true))))
    by (vm_compute; reflexivity).
  split; [exact E |].
  apply (tRNS_second_chunk 2 2 (session 0x01 0 0 [x00; x2a; x00; x07] true)).
  - lia.
  - repeat split; reflexivity.
  - exact E.
  - vm_compute. reflexivity.
  - unfold chunk_present. vm_compute. lia.
Defined.

(** X4: what the decoding leaves in [readbuf], the array that is handed to
    png_set_tRNS.  In gray and in RGB mode not one of its cells has been
    written; in palette mode the first [len] cells hold the bytes of the
    chunk and the others have not been written. *)
Theorem tRNS_readbuf_after_decode (len : Z) (w w1 : world) :
  0 <= len ->
  tRNS_decode (readbuf_loc w, 0%nat) len (enter w) = Normal tt w1 ->
  (color_type (w_png w) = PNG_COLOR_TYPE_GRAY
   \/ color_type (w_png w) = PNG_COLOR_TYPE_RGB ->
   w_heap w1 !! readbuf_loc w = Some (replicate 256 None))
  /\ (color_type (w_png w) = PNG_COLOR_TYPE_PALETTE ->
      1 <= len <= 256
      /\ w_heap w1 !! readbuf_loc w
         = Some ((Some <$> take (Z.to_nat len) (w_pending w))
                   ++ replicate (256 - Z.to_nat len) None)).
Proof.
  intros Hlen. rewrite tRNS_decode_closed by apply enter_lookup.
  change (w_png (enter w)) with (w_png w).
  destruct (color_type (w_png w) =? PNG_COLOR_TYPE_GRAY) eqn:Eg.
  { apply Z.eqb_eq in Eg. rewrite tRNS_gray_closed.
    destruct (negb (len =? 2)); [intros H; now apply reject_not_normal in H |].
    change (w_pending (enter w)) with (w_pending w).
    destruct (w_pending w) as [| b0 [| b1 rest]]; try discriminate.
    intros H; inversion H. split.
    - intros _. apply lookup_insert_eq.
    - rewrite Eg. discriminate. }
  destruct (color_type (w_png w) =? PNG_COLOR_TYPE_RGB) eqn:Er.
  { apply Z.eqb_eq in Er. rewrite tRNS_rgb_closed.
    destruct (negb (len =? 6)); [intros H; now apply reject_not_normal in H |].
    change (w_pending (enter w)) with (w_pending w).
    destruct (w_pending w) as [| b0 [| b1 [| b2 [| b3 [| b4 [| b5 rest]]]]]];
      try discriminate.
    intros H; inversion H. split.
    - intros _. apply lookup_insert_eq.
    - rewrite Er. discriminate. }
  apply Z.eqb_neq in Eg, Er.
  destruct (color_type (w_png w) =? PNG_COLOR_TYPE_PALETTE);
    [| intros H; now apply reject_not_normal in H].
  rewrite tRNS_palette_closed by apply enter_lookup.
  destruct (negb _); [intros H; now apply reject_not_normal in H |].
  change (w_png (enter w)) with (w_png w).
  change (w_pending (enter w)) with (w_pending w).
  destruct (palette_length_invalid len (w_png w)) eqn:E;
    [intros H; now apply reject_not_normal in H |].
  apply palette_length_ok in E. destruct E as (E0 & E1 & E2).
  destruct (Nat.leb_spec (Z.to_nat len) (List.length (w_pending w)))
    as [Hp | Hp]; [| discriminate].
  intros [= <-]. split.
  - intros [Hc | Hc]; contradiction.
  - intros _. split; [lia |].
    unfold decoded. wsimpl. rewrite lookup_insert_eq.
    rewrite <- drop_replicate. reflexivity.
Qed.

Lemma tRNS_readbuf_after_decode_witness :
  w_heap (final (tRNS_decode
                   (readbuf_loc (session 0x01 0 0 [x00; x2a] true), 0%nat) 2
                   (enter (session 0x01 0 0 [x00; x2a] true))))
    !! readbuf_loc (session 0x01 0 0 [x00; x2a] true)
  = Some (replicate 256 None).
Proof.
  assert (H0 : 0 <= 2) by lia.
  apply (tRNS_readbuf_after_decode 2 (session 0x01 0 0 [x00; x2a] true)
           (final (tRNS_decode
                     (readbuf_loc (session 0x01 0 0 [x00; x2a] true), 0%nat) 2
                     (enter (session 0x01 0 0 [x00; x2a] true)))) H0).
  - vm_compute. reflexivity.
  - left. reflexivity.
Defined.

Lemma settle_num_trans (info_ptr : png_inforp) (alphas : block)
    (p' : png_struct) (n : nat) (w : world) :
  num_trans (w_png (final (settle info_ptr alphas (decoded p' n w))))
  = (if w_crc_ok w then num_trans p' else 0).
Proof.
  unfold settle. change (w_crc_ok (decoded p' n w)) with (w_crc_ok w).
  destruct (w_crc_ok w); [destruct info_ptr |]; reflexivity.
Qed.

Lemma reject_num_trans (msg : string) (len : Z) (w : world) :
  num_trans (w_png (final (as_call (reject msg len w))))
  = num_trans (w_png w).
Proof. unfold reject. now destruct (_ <=? _)%nat. Qed.

(** X5: the count of transparent entries a call leaves in the
    [png_struct] is the one it found, or 0, or 1, or in palette mode the
    length of the chunk, which is then between 1 and 256 and not above the
    size of the palette.  So a count that is at most 256 on entry is at most
    256 on exit. *)
Theorem tRNS_count_bounded (info_ptr : png_inforp) (len : Z) (w : world) :
  0 <= len ->
  let n' := num_trans (w_png (final (png_handle_tRNS info_ptr len w))) in
  (n' = num_trans (w_png w) \/ n' = 0 \/ n' = 1
   \/ (n' = len /\ 1 <= len <= 256 /\ len <= to_uint (num_palette (w_png w))
       /\ color_type (w_png w) = PNG_COLOR_TYPE_PALETTE))
  /\ (0 <= num_trans (w_png w) <= 256 -> 0 <= n' <= 256).
Proof.
  intros Hlen. cbv zeta.
  assert (H : let n' := num_trans (w_png (final (handle_closed info_ptr len w)))
              in n' = num_trans (w_png w) \/ n' = 0 \/ n' = 1
                 \/ (n' = len /\ 1 <= len <= 256
                     /\ len <= to_uint (num_palette (w_png w))
                     /\ color_type (w_png w) = PNG_COLOR_TYPE_PALETTE)).
  { cbv zeta. unfold handle_closed. cbv zeta.
    destruct (have_header w); cbn [negb]; [| now left].
    destruct (have_image_data w); [left; apply reject_num_trans |].
    destruct (_ && _); [left; apply reject_num_trans |].
    destruct (color_type (w_png w) =? PNG_COLOR_TYPE_GRAY).
    { destruct (negb _); [left; apply reject_num_trans |].
      destruct (w_pending w) as [| b0 [| b1 rest]]; try now left.
      rewrite settle_num_trans. destruct (w_crc_ok w); cbn; auto. }
    destruct (color_type (w_png w) =? PNG_COLOR_TYPE_RGB).
    { destruct (negb _); [left; apply reject_num_trans |].
      destruct (w_pending w) as [| b0 [| b1 [| b2 [| b3 [| b4 [| b5 rest]]]]]];
        try now left.
      rewrite settle_num_trans. destruct (w_crc_ok w); cbn; auto. }
    destruct (color_type (w_png w) =? PNG_COLOR_TYPE_PALETTE) eqn:Ep;
      [| left; apply reject_num_trans].
    apply Z.eqb_eq in Ep.
    destruct (negb _); [left; apply reject_num_trans |].
    destruct (palette_length_invalid len (w_png w)) eqn:E;
      [left; apply reject_num_trans |].
    apply palette_length_ok in E. destruct E as (E0 & E1 & E2).
    destruct (_ <=? _)%nat; [| now left].
    rewrite settle_num_trans. destruct (w_crc_ok w); [| auto].
    right. right. right. cbn. unfold to_uint_16.
    rewrite Z.mod_small by lia. repeat split; try assumption; lia. }
  rewrite png_handle_tRNS_closed by exact Hlen. cbv zeta in H.
  split; [exact H |]. intros Hn.
  destruct H as [-> | [-> | [-> | (-> & Hl & _)]]]; lia.
Qed.

Lemma tRNS_count_bounded_witness :
  0 <= num_trans (w_png (final (png_handle_tRNS InfoPtr 3
                                  (session 0x03 3 4 [x0a; x14; x1e] true))))
    <= 256.
Proof.
  assert (H0 : 0 <= 3) by lia.
  apply (tRNS_count_bounded InfoPtr 3
           (session 0x03 3 4 [x0a; x14; x1e] true) H0).
  cbn. lia.
Defined.

(** * The crash demonstration programs: proofs *)

Import Libc.
Local Open Scope prog_scope.

Lemma crashy_process_data_unfold (data : list byte) :
  Crashy.process_data data
  = with_buffer 16
      (if (List.length data <? 5)%nat then ret tt
       else
         for_loop (List.length data - 5 + 1) 0 (Crashy.round data) ;;
         division data (List.length data) ;;
         null_store data (List.length data)).
Proof. reflexivity. Qed.

Lemma fixed_process_data_unfold (data : list byte) :
  CrashyFixed.process_data data
  = with_buffer 16
      (if (List.length data <? 5)%nat then ret tt
       else
         for_loop (List.length data - 5 + 1) 0 (CrashyFixed.round data) ;;
         division data (List.length data) ;;
         null_store data (List.length data)).
Proof. reflexivity. Qed.

Lemma stack_cells_start : stack_cells 16 start = replicate 16 None.
Proof. reflexivity. Qed.



(** ** Comparing bytes *)

Lemma byte_val_inj (a b : byte) : byte_val a = byte_val b -> a = b.
Proof.
  unfold byte_val. intros H. apply N2Z.inj in H.
  apply (f_equal Byte.of_N) in H. rewrite !Byte.of_to_N in H.
  now injection H.
Qed.

Lemma compare_bytes_refl (a : list byte) : compare_bytes a a = 0.
Proof.
  induction a as [| x a IH]; cbn; [reflexivity |].
  now rewrite Z.ltb_irrefl.
Qed.

Lemma compare_bytes_eq (a b : list byte) :
  List.length a = List.length b -> compare_bytes a b = 0 -> a = b.
Proof.
  revert b. induction a as [| x a IH]; intros [| y b] Hl; cbn in *;
    try discriminate; [reflexivity |].
  destruct (byte_val x <? byte_val y) eqn:E1; [discriminate |].
  destruct (byte_val y <? byte_val x) eqn:E2; [discriminate |].
  intros H. apply Z.ltb_ge in E1, E2.
  f_equal; [apply byte_val_inj; lia | apply IH; [lia | exact H]].
Qed.

Lemma occurs_at_bound (data : list byte) (i : nat) :
  occurs_at data i -> (i + 5 <= List.length data)%nat.
Proof.
  unfold occurs_at. intros H. apply (f_equal (@List.length _)) in H.
  rewrite length_take, length_drop in H.
  change (List.length (lit "CRASH")) with 5%nat in H. lia.
Qed.

Lemma trigger_at_spec (data : list byte) (i : nat) :
  trigger_at data i = true <-> occurs_at data i.
Proof.
  unfold trigger_at. rewrite andb_true_iff, Nat.leb_le, Z.eqb_eq. split.
  - intros [Hb H]. apply compare_bytes_eq; [| exact H].
    rewrite length_take, length_drop.
    change (List.length (lit "CRASH")) with 5%nat. lia.
  - intros H. split; [now apply occurs_at_bound |].
    unfold occurs_at in H. rewrite H. apply compare_bytes_refl.
Qed.

Lemma memcmp_run (a b : list byte) (n : nat) (f : frame) :
  (n <= List.length a)%nat -> (n <= List.length b)%nat ->
  memcmp a b n f = Ran (compare_bytes (take n a) (take n b)) f.
Proof.
  intros Ha Hb. unfold memcmp.
  apply Nat.leb_le in Ha, Hb. now rewrite Ha, Hb.
Qed.

(** The test of one round, at a position the loop visits. *)
Lemma trigger_test (data : list byte) (i : nat) (act : P unit) (f : frame) :
  (i + 5 <= List.length data)%nat ->
  (r <- memcmp (drop i data) (lit "CRASH") 5 ;;
   if r =? 0 then act else ret tt) f
  = if trigger_at data i then act f else Ran tt f.
Proof.
  intros Hb. unfold bind.
  rewrite memcmp_run;
    [| rewrite length_drop; lia | change (List.length (lit "CRASH")) with 5%nat; lia].
  unfold trigger_at. apply Nat.leb_le in Hb. rewrite Hb. cbn [andb].
  change (take 5 (lit "CRASH")) with (lit "CRASH").
  now destruct (_ =? 0).
Qed.

(** A loop whose rounds find nothing does nothing. *)
Lemma for_loop_no_trigger (data : list byte) (body : nat -> P unit) :
  (forall j f, (j + 5 <= List.length data)%nat -> trigger_at data j = false ->
               body j f = Ran tt f) ->
  forall n i f,
    (i + n + 4 <= List.length data)%nat ->
    (forall j, (i <= j < i + n)%nat -> trigger_at data j = false) ->
    for_loop n i body f = Ran tt f.
Proof.
  intros Hbody n. induction n as [| n IH]; intros i f Hb Hno; [reflexivity |].
  cbn [for_loop]. unfold bind.
  rewrite Hbody; [| lia | apply Hno; lia].
  apply IH; [lia |]. intros j Hj. apply Hno. lia.
Qed.

Lemma crashy_round_idle (data : list byte) (j : nat) (f : frame) :
  (j + 5 <= List.length data)%nat -> trigger_at data j = false ->
  Crashy.round data j f = Ran tt f.
Proof.
  intros Hb Ht. unfold Crashy.round. rewrite trigger_test by exact Hb.
  now rewrite Ht.
Qed.

Lemma fixed_round_idle (data : list byte) (j : nat) (f : frame) :
  (j + 5 <= List.length data)%nat -> trigger_at data j = false ->
  CrashyFixed.round data j f = Ran tt f.
Proof.
  intros Hb Ht. unfold CrashyFixed.round. rewrite trigger_test by exact Hb.
  now rewrite Ht.
Qed.

(** ** One round that finds the pattern *)



Lemma c_string_until (l : list byte) (rest : list (option byte)) :
  c_string ((Some <$> l) ++ Some x00 :: rest) = Text (until_nul l).
Proof.
  induction l as [| b l IH]; [reflexivity |].
  cbn. destruct (Byte.eqb b x00); [reflexivity |].
  cbn in IH. now rewrite IH.
Qed.

Lemma until_nul_length (l : list byte) :
  (List.length (until_nul l) <= List.length l)%nat.
Proof.
  induction l as [| b l IH]; cbn; [lia |].
  destruct (Byte.eqb b x00); cbn; lia.
Qed.

Lemma fixed_round_found (data : list byte) (k : nat) (f : frame) :
  (k + 5 <= List.length data)%nat -> trigger_at data k = true ->
  List.length (buffer f) = 16%nat ->
  exists b',
    List.length b' = 16%nat
    /\ CrashyFixed.round data k f
       = Ran tt
           (mk_frame b'
              (stdout f
               ++ [("Found crash trigger at position %zu\n"%string, SizeArg k);
                   ("Buffer content (truncated): %s\n"%string,
                    StringArg (shown data))])).
Proof.
  intros Hb Ht Hl. unfold CrashyFixed.round.
  rewrite trigger_test by exact Hb. rewrite Ht. cbv zeta.
  change (16 - 1)%nat with 15%nat. fold (fixed_copy_size data).
  assert (Hcs : (fixed_copy_size data <= List.length data)%nat
                /\ (fixed_copy_size data < 16)%nat).
  { unfold fixed_copy_size.
    destruct (Nat.ltb_spec (List.length data) 16); lia. }
  destruct Hcs as [Hcs1 Hcs2].
  unfold bind, printf_buffer, printf, memcpy_buffer, store_buffer.
  cbn [buffer stdout].
  pose proof Hcs1 as Hcs1'. apply Nat.leb_le in Hcs1'. rewrite Hcs1'.
  rewrite Hl.
  assert (Hcs3 : (fixed_copy_size data <=? 16)%nat = true)
    by (apply Nat.leb_le; lia).
  rewrite Hcs3. cbn [buffer stdout].
  assert (Hlen : List.length ((Some <$> take (fixed_copy_size data) data)
                                ++ drop (fixed_copy_size data) (buffer f))
                 = 16%nat).
  { rewrite length_app, length_fmap, length_take, length_drop. lia. }
  rewrite Hlen. apply Nat.ltb_lt in Hcs2. rewrite Hcs2. cbn [buffer stdout].
  apply Nat.ltb_lt in Hcs2.
  assert (Hins : <[fixed_copy_size data := Some x00]>
                   ((Some <$> take (fixed_copy_size data) data)
                      ++ drop (fixed_copy_size data) (buffer f))
                 = (Some <$> take (fixed_copy_size data) data)
                     ++ Some x00 :: drop (S (fixed_copy_size data)) (buffer f)).
  { assert (Hpre : List.length (Some <$> take (fixed_copy_size data) data)
                   = fixed_copy_size data)
      by (rewrite length_fmap, length_take; lia).
    rewrite <- (Nat.add_0_r (fixed_copy_size data)) at 1.
    rewrite <- Hpre at 1. rewrite insert_app_r.
    f_equal.
    destruct (drop (fixed_copy_size data) (buffer f)) as [| y rest] eqn:Ed.
    - apply (f_equal (@List.length _)) in Ed. rewrite length_drop in Ed.
      cbn in Ed. lia.
    - cbn. f_equal.
      replace (S (fixed_copy_size data)) with (fixed_copy_size data + 1)%nat
        by lia.
      rewrite <- drop_drop. now rewrite Ed. }
  rewrite Hins, c_string_until.
  eexists. split; [| unfold shown; rewrite <- app_assoc; reflexivity].
  rewrite <- Hins. now rewrite length_insert.
Qed.

(** ** The search as a whole *)



Lemma fixed_loop_run (data : list byte) (n i : nat) (f : frame) :
  List.length (buffer f) = 16%nat ->
  (i + n + 4 <= List.length data)%nat ->
  exists b',
    List.length b' = 16%nat
    /\ for_loop n i (CrashyFixed.round data) f
       = Ran tt
           (mk_frame b'
              (stdout f
               ++ fixed_lines data (List.filter (trigger_at data) (seq i n)))).
Proof.
  revert i f. induction n as [| n IH]; intros i f Hl Hb.
  - exists (buffer f). split; [exact Hl |]. cbn.
    rewrite app_nil_r. now destruct f.
  - cbn [for_loop seq List.filter]. unfold bind.
    destruct (trigger_at data i) eqn:Ht.
    + destruct (fixed_round_found data i f) as (b1 & Hb1 & ->);
        [lia | exact Ht | exact Hl |].
      destruct (IH (S i) (mk_frame b1
                            (stdout f
                             ++ [("Found crash trigger at position %zu\n"%string,
                                  SizeArg i);
                                 ("Buffer content (truncated): %s\n"%string,
                                  StringArg (shown data))])))
        as (b2 & Hb2 & ->); [exact Hb1 | lia |].
      exists b2. split; [exact Hb2 |]. cbn [buffer stdout].
      unfold fixed_lines. cbn [flat_map]. now rewrite <- app_assoc.
    + rewrite fixed_round_idle by (try assumption; lia).
      apply IH; [exact Hl | lia].
Qed.

(** ** The two tests after the search *)

Lemma byte_eqb_eq (a b : byte) : Byte.eqb a b = true <-> a = b.
Proof.
  split; [apply Byte.byte_dec_bl | apply Byte.byte_dec_lb].
Qed.

Lemma division_run (data : list byte) (f : frame) :
  match data with
  | d0 :: d1 :: d2 :: d3 :: _ =>
      if (10 <=? List.length data)%nat && Byte.eqb d0 (chr "D")
         && Byte.eqb d1 (chr "I") && Byte.eqb d2 (chr "V")
      then
        division data (List.length data) f
        = (if byte_val d3 - byte_val (chr "0") =? 0
           then Faulted DivisionByZero f
           else printf "Division result: %d\n"
                  (IntArg (Z.quot 100 (byte_val d3 - byte_val (chr "0")))) f)
      else division data (List.length data) f = Ran tt f
  | _ => division data (List.length data) f = Ran tt f
  end.
Proof.
  destruct data as [| d0 [| d1 [| d2 [| d3 rest]]]]; try reflexivity.
  unfold division, and_then, bind, read, int_div.
  destruct (10 <=? _)%nat; cbn [andb lookup list_lookup]; [| reflexivity].
  cbn.
  destruct (Byte.eqb d0 _); cbn; [| reflexivity].
  destruct (Byte.eqb d1 _); cbn; [| reflexivity].
  destruct (Byte.eqb d2 _); cbn; [| reflexivity].
  destruct (_ =? 0); reflexivity.
Qed.

Lemma null_store_run (data : list byte) (f : frame) :
  null_store data (List.length data) f
  = if (8 <=? List.length data)%nat
       && (compare_bytes (take 7 data) (lit "NULLPTR") =? 0)
    then Faulted NullDereference f
    else Ran tt f.
Proof.
  unfold null_store, and_then, bind.
  destruct (Nat.leb_spec 8 (List.length data)) as [H | H]; [| reflexivity].
  rewrite memcmp_run;
    [| lia | change (List.length (lit "NULLPTR")) with 7%nat; lia].
  change (take 7 (lit "NULLPTR")) with (lit "NULLPTR"). cbn [andb].
  now destruct (_ =? 0).
Qed.

Lemma tail_closed (data : list byte) (f : frame) :
  (division data (List.length data) ;; null_store data (List.length data)) f
  = match div_trigger data with
    | Some d =>
        if d =? 0 then Faulted DivisionByZero f
        else
          let f1 := mk_frame (buffer f)
                      (stdout f ++ [("Division result: %d\n"%string,
                                     IntArg (Z.quot 100 d))]) in
          if null_trigger data then Faulted NullDereference f1 else Ran tt f1
    | None => if null_trigger data then Faulted NullDereference f else Ran tt f
    end.
Proof.
  unfold bind. pose proof (division_run data f) as D.
  unfold div_trigger.
  destruct data as [| d0 [| d1 [| d2 [| d3 rest]]]];
    try (rewrite D; apply null_store_run).
  destruct (_ && _).
  - rewrite D. destruct (_ =? 0); [reflexivity |].
    unfold printf. apply null_store_run.
  - rewrite D. apply null_store_run.
Qed.

Lemma starts_with_cons (b : byte) (pat data : list byte) (c : byte) :
  starts_with (c :: pat) (b :: data) <-> c = b /\ starts_with pat data.
Proof.
  unfold starts_with. cbn. split.
  - intros H. injection H as -> H. auto.
  - intros [-> H]. now rewrite H.
Qed.

Lemma div_trigger_spec (data : list byte) (d : Z) :
  div_trigger data = Some d
  <-> (10 <= List.length data)%nat /\ starts_with (lit "DIV") data
      /\ exists d3, data !! 3%nat = Some d3
                    /\ d = byte_val d3 - byte_val (chr "0").
Proof.
  unfold div_trigger.
  destruct data as [| d0 [| d1 [| d2 [| d3 rest]]]];
    try (split; [discriminate | intros (H & _); cbn in H; lia]).
  change (lit "DIV") with [chr "D"; chr "I"; chr "V"].
  rewrite !starts_with_cons.
  destruct (Nat.leb_spec 10 (List.length (d0 :: d1 :: d2 :: d3 :: rest)))
    as [Hs | Hs]; cbn [andb];
    [| split; [discriminate | intros (H & _); lia]].
  destruct (Byte.eqb d0 (chr "D")) eqn:E0; cbn [andb].
  2:{ split; [discriminate |]. intros (_ & (H & _) & _).
      subst. vm_compute in *. discriminate. }
  destruct (Byte.eqb d1 (chr "I")) eqn:E1; cbn [andb].
  2:{ split; [discriminate |]. intros (_ & (_ & H & _) & _).
      subst. vm_compute in *. discriminate. }
  destruct (Byte.eqb d2 (chr "V")) eqn:E2; cbn [andb].
  2:{ split; [discriminate |]. intros (_ & (_ & _ & H & _) & _).
      subst. vm_compute in *. discriminate. }
  apply byte_eqb_eq in E0, E1, E2. subst d0 d1 d2. split.
  - intros [= <-]. split; [exact Hs |]. split; [| exists d3; split; reflexivity].
    repeat split.
  - intros (_ & _ & d3' & Hd & ->). cbn in Hd. now injection Hd as ->.
Qed.

Lemma div_trigger_zero (data : list byte) :
  div_trigger data = Some 0
  <-> (10 <= List.length data)%nat /\ starts_with (lit "DIV0") data.
Proof.
  rewrite div_trigger_spec. split.
  - intros (Hs & Hp & d3 & Hd & Hz). split; [exact Hs |].
    assert (d3 = chr "0") by (apply byte_val_inj; lia). subst d3.
    destruct data as [| d0 [| d1 [| d2 [| d3 rest]]]]; try discriminate.
    cbn in Hd. injection Hd as ->.
    change (lit "DIV") with [chr "D"; chr "I"; chr "V"] in Hp.
    rewrite !starts_with_cons in Hp. destruct Hp as (<- & <- & <- & _).
    reflexivity.
  - intros (Hs & Hp). split; [exact Hs |].
    destruct data as [| d0 [| d1 [| d2 [| d3 rest]]]]; try discriminate.
    change (lit "DIV0") with [chr "D"; chr "I"; chr "V"; chr "0"] in Hp.
    rewrite !starts_with_cons in Hp. destruct Hp as (<- & <- & <- & <- & _).
    split; [reflexivity |]. exists (chr "0"). split; [reflexivity | lia].
Qed.

Lemma null_trigger_spec (data : list byte) :
  null_trigger data = true
  <-> (8 <= List.length data)%nat /\ starts_with (lit "NULLPTR") data.
Proof.
  unfold null_trigger, starts_with.
  rewrite andb_true_iff, Nat.leb_le, Z.eqb_eq.
  change (List.length (lit "NULLPTR")) with 7%nat. split.
  - intros [Hs H]. split; [exact Hs |].
    apply compare_bytes_eq; [| exact H].
    rewrite length_take. change (List.length (lit "NULLPTR")) with 7%nat. lia.
  - intros [Hs H]. split; [exact Hs |]. rewrite H. apply compare_bytes_refl.
Qed.

Lemma div_null_exclusive (data : list byte) (d : Z) :
  div_trigger data = Some d -> null_trigger data = false.
Proof.
  intros Hd. apply div_trigger_spec in Hd. destruct Hd as (_ & Hp & _).
  destruct (null_trigger data) eqn:Hn; [| reflexivity].
  apply null_trigger_spec in Hn. destruct Hn as [_ Hn].
  destruct data as [| d0 rest]; [discriminate |].
  change (lit "DIV") with (chr "D" :: lit "IV") in Hp.
  change (lit "NULLPTR") with (chr "N" :: lit "ULLPTR") in Hn.
  apply starts_with_cons in Hp, Hn. destruct Hp as [<- _], Hn as [Hn _].
  discriminate.
Qed.

(** ** The programs as a whole *)


Lemma fixed_closed (data : list byte) :
  (5 <= List.length data)%nat ->
  CrashyFixed.process_data data start
  = let out := fixed_lines data (trigger_positions data) in
    match div_trigger data with
    | Some d =>
        if d =? 0 then Faulted DivisionByZero (mk_frame [] out)
        else Ran tt (mk_frame []
                       (out ++ [("Division result: %d\n"%string,
                                 IntArg (Z.quot 100 d))]))
    | None =>
        if null_trigger data then Faulted NullDereference (mk_frame [] out)
        else Ran tt (mk_frame [] out)
    end.
Proof.
  intros Hs. rewrite fixed_process_data_unfold. unfold with_buffer.
  rewrite stack_cells_start.
  assert (E : (List.length data <? 5)%nat = false) by (apply Nat.ltb_ge; lia).
  rewrite E. unfold bind at 1.
  destruct (fixed_loop_run data (List.length data - 5 + 1) 0
              (mk_frame (replicate 16 None) (stdout start)))
    as (b' & Hb' & ->); [reflexivity | lia |].
  rewrite tail_closed. cbn [buffer stdout start app]. cbv zeta.
  fold (trigger_positions data).
  destruct (div_trigger data) as [d |] eqn:Ed.
  - destruct (d =? 0); [reflexivity |].
    now rewrite (div_null_exclusive data d Ed).
  - now destruct (null_trigger data).
Qed.


Lemma short_input (data : list byte) :
  (List.length data < 5)%nat ->
  Crashy.process_data data start = Ran tt start
  /\ CrashyFixed.process_data data start = Ran tt start.
Proof.
  intros Hs. rewrite crashy_process_data_unfold, fixed_process_data_unfold.
  unfold with_buffer. apply Nat.ltb_lt in Hs. now rewrite Hs.
Qed.

Lemma trigger_positions_spec (data : list byte) (k : nat) :
  In k (trigger_positions data) <-> occurs_at data k.
Proof.
  unfold trigger_positions. rewrite filter_In, in_seq, trigger_at_spec.
  split; [now intros [_ H] |].
  intros H. split; [| exact H]. apply occurs_at_bound in H. lia.
Qed.





(** X7: the patched program has two faults left and no other.  It divides
    by zero exactly on the inputs of at least 10 bytes that begin with
    "DIV0", it writes through the null pointer exactly on the inputs of at
    least 8 bytes that begin with "NULLPTR", and on every other input it
    returns: the copy into the buffer, the terminator and the printing of
    the buffer are always within the 16 bytes. *)
Theorem crashy_fixed_faults (data : list byte) :
  (forall e f,
     CrashyFixed.process_data data start = Faulted e f ->
     e = DivisionByZero \/ e = NullDereference)
  /\ ((exists f, CrashyFixed.process_data data start
                 = Faulted DivisionByZero f)
      <-> (10 <= List.length data)%nat /\ starts_with (lit "DIV0") data)
  /\ ((exists f, CrashyFixed.process_data data start
                 = Faulted NullDereference f)
      <-> (8 <= List.length data)%nat /\ starts_with (lit "NULLPTR") data).
Proof.
  destruct (Nat.lt_ge_cases (List.length data) 5) as [H5 | H5].
  { rewrite (proj2 (short_input data H5)).
    split; [discriminate |]. split; (split; [intros [f E]; discriminate |]);
      intros [Hs _]; lia. }
  rewrite fixed_closed by exact H5. cbv zeta.
  pose proof (div_trigger_zero data) as Dz.
  pose proof (null_trigger_spec data) as Ns.
  destruct (div_trigger data) as [d |] eqn:Ed.
  - pose proof (div_null_exclusive data d Ed) as Hn.
    destruct (Z.eqb_spec d 0) as [-> | Hd].
    + split; [intros e f [= <- _]; now left |].
      split; [split; [intros _; now apply Dz | eauto] |].
      split; [intros [f E]; discriminate |].
      intros H. apply Ns in H. congruence.
    + split; [discriminate |].
      split; (split; [intros [f E]; discriminate |]); intros H.
      * apply Dz in H. congruence.
      * apply Ns in H. congruence.
  - destruct (null_trigger data) eqn:En.
    + split; [intros e f [= <- _]; now right |].
      split; [split; [intros [f E]; discriminate |] |].
      * intros H. apply Dz in H. discriminate.
      * split; [intros _; now apply Ns | eauto].
    + split; [discriminate |].
      split; (split; [intros [f E]; discriminate |]); intros H.
      * apply Dz in H. discriminate.
      * apply Ns in H. discriminate.
Qed.

Lemma crashy_fixed_faults_witness :
  (exists f, CrashyFixed.process_data (lit "DIV0: CRASH me twice CRASH") start
             = Faulted DivisionByZero f)
  /\ (exists f, CrashyFixed.process_data (lit "NULLPTR!") start
                = Faulted NullDereference f).
Proof.
  split.
  - apply (crashy_fixed_faults (lit "DIV0: CRASH me twice CRASH")).
    split; [cbn; lia | reflexivity].
  - apply (crashy_fixed_faults (lit "NULLPTR!")).
    split; [cbn; lia | reflexivity].
Defined.

Lemma shown_take_15 (data : list byte) :
  shown data = until_nul (take 15 data).
Proof.
  unfold shown, fixed_copy_size.
  destruct (Nat.ltb_spec (List.length data) 16) as [H | H]; [| reflexivity].
  now rewrite !take_ge by lia.
Qed.

Lemma trigger_positions_sorted (f : nat -> bool) (n i : nat) :
  StronglySorted lt (List.filter f (seq i n)).
Proof.
  revert i. induction n as [| n IH]; intros i; cbn; [constructor |].
  destruct (f i); [| apply IH].
  constructor; [apply IH |].
  apply Forall_forall. intros k Hk. apply list_elem_of_In in Hk.
  apply filter_In in Hk. destruct Hk as [Hk _]. apply in_seq in Hk. lia.
Qed.

(** X8: what the patched program prints when it has at least 5 bytes to
    look at.  For every position of "CRASH", in rising order, it prints the
    position and then the same text: the first 15 bytes of the input, cut
    before their first zero byte.  The only other line it can print is the
    result of the division, 100 over the fourth byte taken as a digit,
    which comes last. *)
Theorem crashy_fixed_output (data : list byte) :
  (5 <= List.length data)%nat ->
  (exists rest,
     stdout (frame_of (CrashyFixed.process_data data start))
     = fixed_lines data (trigger_positions data) ++ rest
     /\ (rest = []
         \/ exists d3, data !! 3%nat = Some d3
              /\ rest = [("Division result: %d\n"%string,
                          IntArg (Z.quot 100
                                    (byte_val d3 - byte_val (chr "0"))))]))
  /\ (forall k, In k (trigger_positions data) <-> occurs_at data k)
  /\ StronglySorted lt (trigger_positions data)
  /\ shown data = until_nul (take 15 data)
  /\ (List.length (shown data) <= 15)%nat.
Proof.
  intros H5. split; [| split; [| split; [| split]]].
  - rewrite fixed_closed by exact H5. cbv zeta.
    destruct (div_trigger data) as [d |] eqn:Ed.
    + apply div_trigger_spec in Ed. destruct Ed as (_ & _ & d3 & Hd3 & ->).
      destruct (_ =? 0); cbn [frame_of stdout].
      * exists []. split; [now rewrite app_nil_r | now left].
      * eexists. split; [reflexivity |]. right. now exists d3.
    + destruct (null_trigger data); cbn [frame_of stdout]; exists [];
        (split; [now rewrite app_nil_r | now left]).
  - apply trigger_positions_spec.
  - apply trigger_positions_sorted.
  - apply shown_take_15.
  - rewrite shown_take_15.
    pose proof (until_nul_length (take 15 data)) as H.
    rewrite length_take in H. lia.
Qed.

Lemma crashy_fixed_output_witness :
  exists rest,
    stdout (frame_of (CrashyFixed.process_data
                        (lit "a CRASH and a second CRASH") start))
    = [("Found crash trigger at position %zu\n"%string, SizeArg 2);
       ("Buffer content (truncated): %s\n"%string,
        StringArg (lit "a CRASH and a s"));
       ("Found crash trigger at position %zu\n"%string, SizeArg 21);
       ("Buffer content (truncated): %s\n"%string,
        StringArg (lit "a CRASH and a s"))] ++ rest.
Proof.
  destruct (crashy_fixed_output (lit "a CRASH and a second CRASH"))
    as ((rest & E & _) & _); [cbn; lia |].
  exists rest. exact E.
Defined.

(** X9: on an input that does not contain "CRASH" the patch changes
    nothing: the two programs print the same lines and end in the same
    way. *)
Theorem crashy_patch_idle (data : list byte) (f : frame) :
  (forall i, ~ occurs_at data i) ->
  Crashy.process_data data f = CrashyFixed.process_data data f.
Proof.
  intros Hno. rewrite crashy_process_data_unfold, fixed_process_data_unfold.
  unfold with_buffer.
  destruct (Nat.ltb_spec (List.length data) 5) as [H5 | H5]; [reflexivity |].
  assert (Hf : forall j, trigger_at data j = false).
  { intros j. destruct (trigger_at data j) eqn:E; [| reflexivity].
    apply trigger_at_spec in E. now apply Hno in E. }
  unfold bind at 1 3.
  rewrite (for_loop_no_trigger data (Crashy.round data)
             (crashy_round_idle data)) by (try lia; intros; apply Hf).
  rewrite (for_loop_no_trigger data (CrashyFixed.round data)
             (fixed_round_idle data)) by (try lia; intros; apply Hf).
  reflexivity.
Qed.

Lemma crashy_patch_idle_witness :
  Crashy.process_data (lit "DIV7 and no trigger") start
  = CrashyFixed.process_data (lit "DIV7 and no trigger") start.
Proof.
  apply (crashy_patch_idle (lit "DIV7 and no trigger") start).
  intros i Ho. apply trigger_at_spec in Ho.
  do 15 (destruct i as [| i]; [discriminate Ho |]).
  unfold trigger_at in Ho. apply andb_true_iff in Ho. destruct Ho as [Ho _].
  apply Nat.leb_le in Ho. cbn in Ho. lia.
Defined.



(** ** Inputs that fit the buffer *)













(** ** The fuzzing entry point *)



